(** * My-Gym-Tracker: assignment, progress, feedback and admin handlers

    A shallow embedding of the Express handlers of the backend
    (server.js, authAdmin.js, utils/logAudit.js) over an explicit model of
    the PostgreSQL tables they query.

    - A table is the list of its rows, in insertion order.
    - A handler is a state-passing computation over the tables and the
      console; [pool.query] may raise (lost connection, constraint
      violation of the schema, malformed parameter), which is chosen by
      the environment, statement by statement.
    - [NOW()] is read from the environment as well.                      *)

From Stdlib Require Import ZArith List String Bool Lia.
Import ListNotations.
Open Scope string_scope.
Open Scope list_scope.
Open Scope Z_scope.

Set Implicit Arguments.

(** ** Rows *)

Inductive Status := pending | done.

Definition status_eqb (a b : Status) : bool :=
  match a, b with
  | pending, pending | done, done => true
  | _, _ => false
  end.

(** users(id, ..., password, role, active); the display columns (name,
    email) are not touched by the handlers modelled here. *)
Record User := mkUser
  { u_id : Z; u_password : string; u_role : string; u_active : bool }.

Record Program := mkProgram { p_id : Z; p_coach_id : Z }.

(** workouts(id, program_id, ...); the descriptive columns are not read by
    the handlers modelled here. *)
Record Workout := mkWorkout { w_id : Z; w_program_id : Z }.

(** user_programs(id, user_id, program_id, completed_at) *)
Record UserProgram := mkUserProgram
  { up_id : Z; up_user_id : Z; up_program_id : Z; completed_at : option Z }.

(** user_progress(user_id, workout_id, status, updated_at) *)
Record UserProgress := mkUserProgress
  { pr_user_id : Z; pr_workout_id : Z; pr_status : Status; updated_at : Z }.

(** comments(id, user_id, program_id, message, created_at) *)
Record Comment := mkComment
  { c_id : Z; c_user_id : Z; c_program_id : Z; c_message : string;
    c_created_at : Z }.

(** audit_logs(actor_id, action, target_id, details, created_at) *)
Record AuditLog := mkAuditLog
  { actor_id : Z; action : string; target_id : option Z;
    details : option string; a_created_at : Z }.

(** ** The store *)

Record Db := mkDb
  { users : list User;
    programs : list Program;
    workouts : list Workout;
    user_programs : list UserProgram;
    user_programs_seq : Z;
    user_progress : list UserProgress;
    comments : list Comment;
    comments_seq : Z;
    audit_logs : list AuditLog }.

Definition set_users (d : Db) (l : list User) : Db :=
  mkDb l (programs d) (workouts d) (user_programs d) (user_programs_seq d)
       (user_progress d) (comments d) (comments_seq d) (audit_logs d).

Definition set_user_programs (d : Db) (l : list UserProgram) : Db :=
  mkDb (users d) (programs d) (workouts d) l (user_programs_seq d)
       (user_progress d) (comments d) (comments_seq d) (audit_logs d).

Definition push_user_program (d : Db) (r : UserProgram) : Db :=
  mkDb (users d) (programs d) (workouts d) (user_programs d ++ [r])
       (user_programs_seq d + 1)
       (user_progress d) (comments d) (comments_seq d) (audit_logs d).

Definition set_user_progress (d : Db) (l : list UserProgress) : Db :=
  mkDb (users d) (programs d) (workouts d) (user_programs d)
       (user_programs_seq d) l (comments d) (comments_seq d) (audit_logs d).

Definition push_comment (d : Db) (r : Comment) : Db :=
  mkDb (users d) (programs d) (workouts d) (user_programs d)
       (user_programs_seq d) (user_progress d) (comments d ++ [r])
       (comments_seq d + 1) (audit_logs d).

Definition push_audit_log (d : Db) (r : AuditLog) : Db :=
  mkDb (users d) (programs d) (workouts d) (user_programs d)
       (user_programs_seq d) (user_progress d) (comments d)
       (comments_seq d) (audit_logs d ++ [r]).

(** The process: the store and what was written with [console.error]. *)
Record World := mkWorld { db : Db; console : list string }.

Definition Error := string.

(** What the handler does not decide: whether the k-th [pool.query] of the
    request raises, and what [NOW()] is when that statement runs. *)
Record Env := mkEnv { raises : nat -> bool; NOW : nat -> Z }.

(** ** Responses *)

Inductive Body :=
| ErrorBody (error : string)
| MessageBody (message : string)
| AssignedBody (message : string) (assignment : option UserProgram)
| CommentBody (message : string) (comment : option Comment).

Record Response := mkResponse { status : nat; body : Body }.

(** ** Handler computations *)

Inductive Outcome (A : Type) :=
| Next (a : A)            (* the statement completed, control goes on *)
| Reply (r : Response)    (* [return res.status(..).json(..)] *)
| Thrown (e : Error).     (* an exception is propagating *)

Arguments Next {A} a.
Arguments Reply {A} r.
Arguments Thrown {A} e.

Definition M (A : Type) := Env -> World -> World * Outcome A.

Definition ret {A} (a : A) : M A := fun _ w => (w, Next a).

Definition bind {A B} (m : M A) (k : A -> M B) : M B :=
  fun env w =>
    match m env w with
    | (w', Next a) => k a env w'
    | (w', Reply r) => (w', Reply r)
    | (w', Thrown e) => (w', Thrown e)
    end.

Definition reply {A} (st : nat) (b : Body) : M A :=
  fun _ w => (w, Reply (mkResponse st b)).

Definition throw {A} (e : Error) : M A := fun _ w => (w, Thrown e).

Definition console_error (label : string) (e : Error) : M unit :=
  fun _ w => (mkWorld (db w) (console w ++ [String.append label (String.append " " e)]), Next tt).

Definition try_catch {A} (m : M A) (h : Error -> M A) : M A :=
  fun env w =>
    match m env w with
    | (w', Thrown e) => h e env w'
    | r => r
    end.

Notation "x <- m ;; k" := (bind m (fun x => k))
  (at level 61, m at next level, right associativity).
Notation "m ;;; k" := (bind m (fun _ => k))
  (at level 61, right associativity).

(** A route handler: [async (req, res) => { try { .. } catch (err) {
    console.error(label, err); res.status(500).json({error}) } }]. *)
Definition route (label error500 : string) (m : M Response)
  : Env -> World -> World * Response :=
  fun env w =>
    match try_catch m
            (fun err => console_error label err ;;;
                        reply 500 (ErrorBody error500)) env w with
    | (w', Next r) => (w', r)
    | (w', Reply r) => (w', r)
    | (w', Thrown _) => (w', mkResponse 500 (ErrorBody error500))
    end.

(** ** Statements *)

Record QResult (R : Type) := mkQResult { rows : list R; rowCount : nat }.

Definition selected {R} (l : list R) : QResult R := mkQResult l (List.length l).
Definition affected (n : nat) : QResult unit := mkQResult [] n.

(** A statement reads [NOW()] and the tables, and returns the new tables
    and its result. *)
Definition Stmt (R : Type) := Z -> Db -> Db * QResult R.

Definition db_error : Error := "error: query failed".

(** [await pool.query(..)], the k-th of the request. A statement that
    raises leaves the tables as they are. *)
Definition pool_query {R} (k : nat) (s : Stmt R) : M (QResult R) :=
  fun env w =>
    if raises env k then (w, Thrown db_error)
    else let (d', r) := s (NOW env k) (db w) in (mkWorld d' (console w), Next r).

(** Modelled from the spec: the default of user_programs.completed_at (the
    DDL of the schema is not among the sources); an Assignment is inserted
    "with null completion timestamp". *)
Definition default_completed_at : option Z := None.

(** Modelled from the spec: the default of user_progress.status (the DDL is
    not among the sources); a ProgressEntry is inserted with
    "status = pending". *)
Definition default_status : Status := pending.

(** Modelled from the spec: the default of the timestamp columns
    (updated_at, created_at; the DDL is not among the sources), the time
    of the insert. *)
Definition default_timestamp (now : Z) : Z := now.

Definition is_assignment (u p : Z) (a : UserProgram) : bool :=
  (up_user_id a =? u) && (up_program_id a =? p).

Definition is_progress (u w : Z) (e : UserProgress) : bool :=
  (pr_user_id e =? u) && (pr_workout_id e =? w).

(** SELECT id FROM user_programs WHERE user_id = $1 AND program_id = $2 *)
Definition select_assignment_id (u p : Z) : Stmt Z :=
  fun _ d => (d, selected (map up_id (filter (is_assignment u p) (user_programs d)))).

(** INSERT INTO user_programs (user_id, program_id) VALUES ($1, $2)
    RETURNING * *)
Definition insert_user_program (u p : Z) : Stmt UserProgram :=
  fun _ d =>
    let r := mkUserProgram (user_programs_seq d) u p default_completed_at in
    (push_user_program d r, selected [r]).

(** INSERT INTO user_progress (user_id, workout_id)
    SELECT $1, id FROM workouts WHERE program_id = $2 *)
Definition new_progress (now u p : Z) (d : Db) : list UserProgress :=
  map (fun w => mkUserProgress u (w_id w) default_status (default_timestamp now))
      (filter (fun w => w_program_id w =? p) (workouts d)).

Definition insert_progress (u p : Z) : Stmt unit :=
  fun now d =>
    let new := new_progress now u p d in
    (set_user_progress d (user_progress d ++ new), affected (List.length new)).

(** UPDATE user_progress SET status = 'done', updated_at = NOW()
    WHERE user_id = $1 AND workout_id = $2 RETURNING * *)
Definition mark_done (now u w : Z) (e : UserProgress) : UserProgress :=
  if is_progress u w e
  then mkUserProgress (pr_user_id e) (pr_workout_id e) done now
  else e.

Definition update_progress_done (u w : Z) : Stmt UserProgress :=
  fun now d =>
    (set_user_progress d (map (mark_done now u w) (user_progress d)),
     selected (map (mark_done now u w)
                   (filter (is_progress u w) (user_progress d)))).

(** SELECT program_id FROM workouts WHERE id = $1 *)
Definition select_workout_program (w : Z) : Stmt Z :=
  fun _ d => (d, selected (map w_program_id
                             (filter (fun x => w_id x =? w) (workouts d)))).

(** SELECT 1 FROM user_progress up JOIN workouts w ON up.workout_id = w.id
    WHERE up.user_id = $1 AND w.program_id = $2 AND up.status <> 'done'
    LIMIT 1 *)
Definition pending_join (u p : Z) (d : Db) : list Z :=
  flat_map
    (fun e =>
       flat_map
         (fun w =>
            if (pr_workout_id e =? w_id w) && (pr_user_id e =? u)
               && (w_program_id w =? p) && negb (status_eqb (pr_status e) done)
            then [1] else [])
         (workouts d))
    (user_progress d).

Definition select_pending (u p : Z) : Stmt Z :=
  fun _ d => (d, selected (firstn 1 (pending_join u p d))).

(** UPDATE user_programs SET completed_at = NOW()
    WHERE user_id = $1 AND program_id = $2 *)
Definition stamp (now u p : Z) (a : UserProgram) : UserProgram :=
  if is_assignment u p a
  then mkUserProgram (up_id a) (up_user_id a) (up_program_id a) (Some now)
  else a.

Definition update_completed (u p : Z) : Stmt unit :=
  fun now d =>
    (set_user_programs d (map (stamp now u p) (user_programs d)),
     affected (List.length (filter (is_assignment u p) (user_programs d)))).

(** UPDATE users SET role=$1 WHERE id=$2 *)
Definition update_user_role (role : string) (id : Z) : Stmt unit :=
  fun _ d =>
    (set_users d
       (map (fun x => if u_id x =? id
                      then mkUser (u_id x) (u_password x) role (u_active x)
                      else x) (users d)),
     affected (List.length (filter (fun x => u_id x =? id) (users d)))).

(** UPDATE users SET password=$1 WHERE id=$2 *)
Definition update_user_password (hashed : string) (id : Z) : Stmt unit :=
  fun _ d =>
    (set_users d
       (map (fun x => if u_id x =? id
                      then mkUser (u_id x) hashed (u_role x) (u_active x)
                      else x) (users d)),
     affected (List.length (filter (fun x => u_id x =? id) (users d)))).

(** UPDATE users SET active=$1 WHERE id=$2 RETURNING id *)
Definition update_user_active (active : bool) (id : Z) : Stmt Z :=
  fun _ d =>
    (set_users d
       (map (fun x => if u_id x =? id
                      then mkUser (u_id x) (u_password x) (u_role x) active
                      else x) (users d)),
     selected (map u_id (filter (fun x => u_id x =? id) (users d)))).

(** SELECT completed_at FROM user_programs
    WHERE user_id = $1 AND program_id = $2 *)
Definition select_completed_at (u p : Z) : Stmt (option Z) :=
  fun _ d => (d, selected (map completed_at
                             (filter (is_assignment u p) (user_programs d)))).

Definition is_comment (u p : Z) (c : Comment) : bool :=
  (c_user_id c =? u) && (c_program_id c =? p).

(** SELECT 1 FROM comments WHERE user_id = $1 AND program_id = $2 *)
Definition select_comment (u p : Z) : Stmt Z :=
  fun _ d => (d, selected (map (fun _ => 1) (filter (is_comment u p) (comments d)))).

(** INSERT INTO comments (user_id, program_id, message)
    VALUES ($1, $2, $3) RETURNING * *)
Definition insert_comment (u p : Z) (msg : string) : Stmt Comment :=
  fun now d =>
    let r := mkComment (comments_seq d) u p msg (default_timestamp now) in
    (push_comment d r, selected [r]).

(** INSERT INTO audit_logs (actor_id, action, target_id, details)
    VALUES ($1, $2, $3, $4) *)
Definition insert_audit_log (actor : Z) (act : string)
           (target : option Z) (det : option string) : Stmt unit :=
  fun now d =>
    (push_audit_log d (mkAuditLog actor act target det (default_timestamp now)),
     affected 1).

(** ** Request fields

    A JSON field of [req.body] is modelled after parsing: an id is an
    integer or absent, a text is a string or absent, a flag is a boolean
    or absent ([undefined]). *)

(** [Number(x)]: [None] stands for [NaN], the value of an absent field. *)
Definition Number (x : option Z) : option Z := x.

(** [!x] on a number: [undefined], [NaN] and [0] are falsy. *)
Definition falsy_num (x : option Z) : bool :=
  match x with None => true | Some n => n =? 0 end.

(** [!x] on a string: [undefined] and the empty string are falsy. *)
Definition falsy_str (x : option string) : bool :=
  match x with None => true | Some s => String.eqb s "" end.

(** The value bound to a statement parameter. *)
Definition num_param (x : option Z) : Z :=
  match x with Some n => n | None => 0 end.

Definition str_param (x : option string) : string :=
  match x with Some s => s | None => "" end.

(** [res.rows[0].column]: reading a column of a missing row raises. *)
Definition row0 {R} (q : QResult R) : M R :=
  match rows q with
  | r :: _ => ret r
  | [] => throw "TypeError: Cannot read properties of undefined"
  end.

(** [when c m]: [if (c) { await m }]. *)
Definition when (c : bool) (m : M unit) : M unit := if c then m else ret tt.

(** ** POST /api/assign-program *)
Definition assignProgram (body_user_id body_program_id : option Z)
  : Env -> World -> World * Response :=
  route "Error assigning program:" "Internal server error"
    (let user_id := Number body_user_id in
     let program_id := Number body_program_id in
     if falsy_num user_id || falsy_num program_id
     then reply 400 (ErrorBody "Missing or invalid user/program")
     else
       let u := num_param user_id in
       let p := num_param program_id in
       exists_ <- pool_query 0 (select_assignment_id u p) ;;
       if (0 <? List.length (rows exists_))%nat
       then reply 409 (ErrorBody "Program already assigned")
       else
         assignment <- pool_query 1 (insert_user_program u p) ;;
         pool_query 2 (insert_progress u p) ;;;
         reply 201 (AssignedBody "Program assigned and progress initialized"
                                 (hd_error (rows assignment)))).

(** ** PATCH /api/mark-workout *)
Definition markWorkoutDone (user_id workout_id : option Z)
  : Env -> World -> World * Response :=
  route "Error updating progress:" "Internal server error"
    (if falsy_num user_id || falsy_num workout_id
     then reply 400 (ErrorBody "Missing required fields")
     else
       let u := num_param user_id in
       let w := num_param workout_id in
       updateResult <- pool_query 0 (update_progress_done u w) ;;
       if (rowCount updateResult =? 0)%nat
       then reply 404 (ErrorBody "Progress entry not found")
       else
         programRes <- pool_query 1 (select_workout_program w) ;;
         if (rowCount programRes =? 0)%nat
         then reply 404 (ErrorBody "Workout not found")
         else
           programId <- row0 programRes ;;
           pending_ <- pool_query 2 (select_pending u programId) ;;
           when (rowCount pending_ =? 0)%nat
                (pool_query 3 (update_completed u programId) ;;; ret tt) ;;;
           reply 200 (MessageBody "Workout marked as done")).

(** ** POST /api/comments *)
Definition submitFeedback (user_id program_id : option Z)
           (message : option string) : Env -> World -> World * Response :=
  route "Comment error:" "Internal server error"
    (if falsy_num user_id || falsy_num program_id || falsy_str message
     then reply 400 (ErrorBody "Missing required fields")
     else
       let u := num_param user_id in
       let p := num_param program_id in
       assignment <- pool_query 0 (select_completed_at u p) ;;
       if (rowCount assignment =? 0)%nat
       then reply 400 (ErrorBody "Program not assigned to this user")
       else
         completed <- row0 assignment ;;
         match completed with
         | None => reply 400 (ErrorBody "Program not completed yet")
         | Some _ =>
             exists_ <- pool_query 1 (select_comment u p) ;;
             if (0 <? rowCount exists_)%nat
             then reply 400 (ErrorBody "Feedback already submitted")
             else
               comment <- pool_query 2 (insert_comment u p (str_param message)) ;;
               reply 201 (CommentBody "Comment submitted successfully"
                                      (hd_error (rows comment)))
         end).

(** ** authAdmin.js

    [req.user] is what authMiddleware decoded from the session token;
    [req.user?.role] of an absent user is [undefined]. *)
Record Caller := mkCaller { caller_id : Z; caller_role : string }.

Definition authAdmin (req_user : option Caller)
           (next : Env -> World -> World * Response)
  : Env -> World -> World * Response :=
  fun env w =>
    if negb (match req_user with
             | Some c => String.eqb (caller_role c) "super_admin"
             | None => false
             end)
    then (w, mkResponse 403 (ErrorBody "Access restricted"))
    else next env w.

(** ** Admin mutations *)

Definition allowed : list string := ["client"; "coach"; "super_admin"].

Definition includes (l : list string) (s : string) : bool :=
  existsb (String.eqb s) l.

(** PATCH /api/users/:id/role *)
Definition changeUserRole (req_user : option Caller) (id : Z)
           (role : option string) : Env -> World -> World * Response :=
  authAdmin req_user
    (route "Role update error:" "Internal server error"
       (if falsy_str role
        then reply 400 (ErrorBody "Role is required")
        else
          if negb (includes allowed (str_param role))
          then reply 400 (ErrorBody "Invalid role")
          else
            pool_query 0 (update_user_role (str_param role) id) ;;;
            reply 200 (MessageBody "Role updated"))).

Section Password.

(** [bcrypt.hash(password, 10)] *)
Variable bcrypt_hash : string -> string.

(** PATCH /api/users/:id/password *)
Definition resetPassword (req_user : option Caller) (id : Z)
           (new_password : option string)
  : Env -> World -> World * Response :=
  authAdmin req_user
    (route "Password reset error:" "Failed to reset password"
       (if falsy_str new_password
           || (String.length (str_param new_password) <? 6)%nat
        then reply 400 (ErrorBody "Password must be at least 6 characters")
        else
          let hashed := bcrypt_hash (str_param new_password) in
          pool_query 0 (update_user_password hashed id) ;;;
          reply 200 (MessageBody "Password reset successfully"))).

End Password.

(** PATCH /api/toggle-user *)
Definition setUserActive (req_user : option Caller) (user_id : option Z)
           (active : option bool) : Env -> World -> World * Response :=
  authAdmin req_user
    (route "Error updating user:" "Internal server error"
       (if falsy_num user_id
           || (match active with None => true | Some _ => false end)
        then reply 400 (ErrorBody "Missing user_id or active flag")
        else
          result <- pool_query 0
                      (update_user_active
                         (match active with Some b => b | None => false end)
                         (num_param user_id)) ;;
          if (rowCount result =? 0)%nat
          then reply 404 (ErrorBody "User not found")
          else reply 200 (MessageBody "User status updated"))).

(** ** utils/logAudit.js

    [k] is the position of the insert among the statements of the request
    that runs it. *)
Definition logAudit (k : nat) (actorId : Z) (action_ : string)
           (targetId : option Z) (details_ : option string) : M unit :=
  try_catch
    (pool_query k (insert_audit_log actorId action_ targetId details_) ;;;
     ret tt)
    (fun err => console_error "Audit logging failed:" err).

(** ** Vocabulary of the claims *)

(** The responses, by the error kind the design gives them. *)
Definition Internal : Response :=
  mkResponse 500 (ErrorBody "Internal server error").
Definition Conflict : Response :=
  mkResponse 409 (ErrorBody "Program already assigned").
Definition Forbidden : Response :=
  mkResponse 403 (ErrorBody "Access restricted").
Definition NotAssigned : Response :=
  mkResponse 400 (ErrorBody "Program not assigned to this user").
Definition NotCompleted : Response :=
  mkResponse 400 (ErrorBody "Program not completed yet").
Definition DuplicateFeedback : Response :=
  mkResponse 400 (ErrorBody "Feedback already submitted").
Definition WorkoutMarked : Response :=
  mkResponse 200 (MessageBody "Workout marked as done").

(** The store answers every statement of the request. *)
Definition no_fault (env : Env) : Prop := forall k, raises env k = false.

(** What the catch block of a route leaves on the console. *)
Definition logged (label : string) (w : World) : World :=
  mkWorld (db w)
          (console w ++ [String.append label (String.append " " db_error)]).

Definition has_assignment (d : Db) (u p : Z) : bool :=
  existsb (is_assignment u p) (user_programs d).

Definition has_progress (d : Db) (u w : Z) : bool :=
  existsb (is_progress u w) (user_progress d).

Definition has_comment (d : Db) (u p : Z) : bool :=
  existsb (is_comment u p) (comments d).

Definition user_exists (d : Db) (u : Z) : bool :=
  existsb (fun x => u_id x =? u) (users d).

Definition program_exists (d : Db) (p : Z) : bool :=
  existsb (fun x => p_id x =? p) (programs d).

(** The assigned (user, program) pairs, one per Assignment row. *)
Definition pairs (d : Db) : list (Z * Z) :=
  map (fun a => (up_user_id a, up_program_id a)) (user_programs d).

(** At most one Assignment per (user, program) pair. *)
Definition unique_assignments (d : Db) : Prop := NoDup (pairs d).

(** The workouts of a program, and the program of a workout. *)
Definition program_workouts (d : Db) (p : Z) : list Workout :=
  filter (fun w => w_program_id w =? p) (workouts d).

Definition workout_program (d : Db) (w : Z) : option Z :=
  hd_error (map w_program_id (filter (fun x => w_id x =? w) (workouts d))).

(** The workout of entry [e] belongs to program [p]. *)
Definition in_program (d : Db) (p : Z) (e : UserProgress) : bool :=
  existsb (fun x => (w_id x =? pr_workout_id e) && (w_program_id x =? p))
          (workouts d).

(** Some entry of [u] for a workout of [p] is not done. *)
Definition pending_in (d : Db) (u p : Z) : bool :=
  existsb (fun e => (pr_user_id e =? u) && in_program d p e
                    && negb (status_eqb (pr_status e) done))
          (user_progress d).

(** The tables once the status update of markWorkoutDone has run. *)
Definition after_mark (now u w : Z) (d : Db) : Db :=
  set_user_progress d (map (mark_done now u w) (user_progress d)).

(** The Assignment of a pair: the first row a lookup returns. *)
Definition assignment_of (d : Db) (u p : Z) : option UserProgram :=
  hd_error (filter (is_assignment u p) (user_programs d)).

(** The tables, without the console. *)
Definition tables (r : World * Response) : Db := db (fst r).

(** ** Example stores *)

(** The store answers every statement; the clock reads [t]. *)
Definition quiet (t : Z) : Env := mkEnv (fun _ => false) (fun _ => t).

(** The k-th statement of the request raises. *)
Definition failing_at (k : nat) (t : Z) : Env := mkEnv (Nat.eqb k) (fun _ => t).

Definition empty_db : Db := mkDb [] [] [] [] 1 [] [] 1 [].

(** Client 1, coach 2, super admin 3; program 1 of coach 2 with workouts 1
    and 2; nothing assigned. *)
Definition gym : Db :=
  mkDb [mkUser 1 "h1" "client" true; mkUser 2 "h2" "coach" true;
        mkUser 3 "h3" "super_admin" true]
       [mkProgram 1 2]
       [mkWorkout 1 1; mkWorkout 2 1]
       [] 1 [] [] 1 [].

(** [gym] after program 1 was assigned to client 1 at time 10. *)
Definition gym_assigned : Db :=
  mkDb (users gym) (programs gym) (workouts gym)
       [mkUserProgram 1 1 1 None] 2
       [mkUserProgress 1 1 pending 10; mkUserProgress 1 2 pending 10]
       [] 1 [].

(** [gym_assigned] after both workouts were marked, the last at time 100. *)
Definition gym_completed : Db :=
  mkDb (users gym) (programs gym) (workouts gym)
       [mkUserProgram 1 1 1 (Some 100)] 2
       [mkUserProgress 1 1 done 90; mkUserProgress 1 2 done 100]
       [] 1 [].

(** [gym_assigned] after workout 1 was marked and the coach added workout 3
    to program 1: client 1 has no entry for workout 3. *)
Definition gym_extended : Db :=
  mkDb (users gym) (programs gym)
       [mkWorkout 1 1; mkWorkout 2 1; mkWorkout 3 1]
       [mkUserProgram 1 1 1 None] 2
       [mkUserProgress 1 1 done 90; mkUserProgress 1 2 pending 10]
       [] 1 [].

Definition coach2 : Caller := mkCaller 2 "coach".
Definition admin3 : Caller := mkCaller 3 "super_admin".

(** ** Sequences of requests *)

(** markWorkoutDone(u, x) for every x of [ws], in that order. *)
Fixpoint mark_all (env : Env) (u : Z) (ws : list Z) (w : World) : World :=
  match ws with
  | [] => w
  | x :: xs => mark_all env u xs (fst (markWorkoutDone (Some u) (Some x) env w))
  end.


(** ** Invariants *)

(** An entry and an Assignment before and after a request: the keys stay,
    a done entry stays done, a completed Assignment stays completed. *)
Definition progress_step (e e' : UserProgress) : Prop :=
  pr_user_id e' = pr_user_id e
  /\ pr_workout_id e' = pr_workout_id e
  /\ (pr_status e = done -> pr_status e' = done).

Definition assignment_step (a a' : UserProgram) : Prop :=
  up_id a' = up_id a
  /\ up_user_id a' = up_user_id a
  /\ up_program_id a' = up_program_id a
  /\ (completed_at a <> None -> completed_at a' <> None).

(** Feedback exists only for a completed Assignment. *)
Definition feedback_only_completed (d : Db) : Prop :=
  forall c, In c (comments d) ->
    exists a, In a (user_programs d)
              /\ is_assignment (c_user_id c) (c_program_id c) a = true
              /\ completed_at a <> None.

(** At most one Feedback per (user, program) pair. *)
Definition unique_feedback (d : Db) : Prop :=
  NoDup (map (fun c => (c_user_id c, c_program_id c)) (comments d)).

(** The tables the client handlers never write. *)
Definition catalog_eq (d d' : Db) : Prop :=
  users d' = users d /\ programs d' = programs d
  /\ workouts d' = workouts d /\ audit_logs d' = audit_logs d.

(** The columns of users set by the admin mutations. *)
Definition with_role (id : Z) (role : string) (x : User) : User :=
  if u_id x =? id then mkUser (u_id x) (u_password x) role (u_active x) else x.


Definition with_active (id : Z) (active : bool) (x : User) : User :=
  if u_id x =? id then mkUser (u_id x) (u_password x) (u_role x) active else x.

(** Everything but users. *)
Definition beside_users_eq (d d' : Db) : Prop :=
  programs d' = programs d /\ workouts d' = workouts d
  /\ user_programs d' = user_programs d
  /\ user_progress d' = user_progress d
  /\ comments d' = comments d /\ audit_logs d' = audit_logs d.

(** ** GET /api/coach-stats/:id *)







(** ** More example stores *)

(** [gym_assigned] with one more entry of client 1, for a workout 9 that
    has no row in workouts. *)
Definition gym_orphan : Db :=
  mkDb (users gym) (programs gym) (workouts gym)
       [mkUserProgram 1 1 1 None] 2
       [mkUserProgress 1 1 pending 10; mkUserProgress 1 2 pending 10;
        mkUserProgress 1 9 pending 10]
       [] 1 [].


(** ** POST /api/workouts *)

Definition push_workout (d : Db) (r : Workout) : Db :=
  mkDb (users d) (programs d) (workouts d ++ [r]) (user_programs d)
       (user_programs_seq d) (user_progress d) (comments d)
       (comments_seq d) (audit_logs d).

(** INSERT INTO workouts (program_id, target_muscle, description, sets,
    weight_equipment) VALUES ($1, $2, $3, $4, $5) RETURNING *

    [new_id] is the id the sequence of the table hands to the row; the
    descriptive values go to columns that the store does not carry. *)
Definition insert_workout (new_id program_id : Z)
           (target_muscle description : string) (sets : Z)
           (weight_equipment : option string) : Stmt Workout :=
  fun _ d =>
    let r := mkWorkout new_id program_id in
    (push_workout d r, selected [r]).

(** What a create route answers: 201 with the new row, or an error. *)
Inductive CreateResponse (R : Type) :=
| Created (row : option R)
| Refused (r : Response).

Arguments Created {R} row.
Arguments Refused {R} r.

Definition createWorkout (new_id : Z) (program_id : option Z)
           (target_muscle description : option string) (sets : option Z)
           (weight_equipment : option string)
  : Env -> World -> World * CreateResponse Workout :=
  fun env w =>
    match try_catch
            (if falsy_num program_id || falsy_str target_muscle
                || falsy_str description || falsy_num sets
             then reply 400 (ErrorBody "Missing required fields")
             else pool_query 0
                    (insert_workout new_id (num_param program_id)
                       (str_param target_muscle) (str_param description)
                       (num_param sets) weight_equipment))
            (fun err => console_error "Error creating workout:" err ;;;
                        reply 500 (ErrorBody "Internal server error"))
            env w with
    | (w', Next result) => (w', Created (hd_error (rows result)))
    | (w', Reply r) => (w', Refused r)
    | (w', Thrown _) => (w', Refused Internal)
    end.

(** [gym_completed] and a request that adds workout 3 to program 1. *)
Definition gym_completed_extended : Db := push_workout gym_completed (mkWorkout 3 1).


(** Every ProgressEntry is for a workout of a program assigned to its
    user. *)
Definition tracked_only_assigned (d : Db) : Prop :=
  forall e, In e (user_progress d) ->
    exists x, In x (workouts d) /\ w_id x = pr_workout_id e
              /\ has_assignment d (pr_user_id e) (w_program_id x) = true.

(** At most one ProgressEntry per (user, workout) pair. *)
Definition unique_progress (d : Db) : Prop :=
  NoDup (map (fun e => (pr_user_id e, pr_workout_id e)) (user_progress d)).

(** The tables after a create request. *)
Definition tables_of_create {R} (r : World * CreateResponse R) : Db :=
  db (fst r).

(** * Lemmas on the statements *)

Arguments Nat.ltb : simpl never.
Arguments Nat.eqb : simpl never.

Lemma length_pos_existsb A B (f : A -> B) (P : A -> bool) (l : list A) :
  (0 <? List.length (map f (filter P l)))%nat = existsb P l.
Proof.
  induction l as [|x l IH]; cbn; [reflexivity|].
  destruct (P x); cbn; [reflexivity | exact IH].
Qed.

Lemma length_zero_existsb A B (f : A -> B) (P : A -> bool) (l : list A) :
  (List.length (map f (filter P l)) =? 0)%nat = negb (existsb P l).
Proof.
  induction l as [|x l IH]; cbn; [reflexivity|].
  destruct (P x); cbn; [reflexivity | exact IH].
Qed.

Lemma existsb_false_filter A (P : A -> bool) (l : list A) :
  existsb P l = false -> filter P l = [].
Proof.
  induction l as [|x l IH]; cbn; [reflexivity|].
  destruct (P x); cbn; [discriminate | exact IH].
Qed.

Lemma existsb_filter A (P : A -> bool) (l : list A) :
  existsb P l = match filter P l with [] => false | _ :: _ => true end.
Proof.
  induction l as [|x l IH]; cbn; [reflexivity|].
  destruct (P x); cbn; [reflexivity | exact IH].
Qed.

(** * The assignment handler, statement by statement *)

Lemma assignProgram_steps env w u p :
  u <> 0 -> p <> 0 ->
  assignProgram (Some u) (Some p) env w =
  if raises env 0 then (logged "Error assigning program:" w, Internal)
  else if has_assignment (db w) u p then (w, Conflict)
  else if raises env 1 then (logged "Error assigning program:" w, Internal)
  else
    let a := mkUserProgram (user_programs_seq (db w)) u p None in
    let w1 := mkWorld (push_user_program (db w) a) (console w) in
    if raises env 2 then (logged "Error assigning program:" w1, Internal)
    else
      (mkWorld (set_user_progress (db w1)
                  (user_progress (db w) ++ new_progress (NOW env 2) u p (db w)))
               (console w),
       mkResponse 201 (AssignedBody "Program assigned and progress initialized"
                                    (Some a))).
Proof.
  intros Hu Hp.
  unfold assignProgram, route, try_catch, bind, pool_query, Number; cbn.
  apply Z.eqb_neq in Hu, Hp. rewrite Hu, Hp; cbn.
  destruct w as [d c]; cbn.
  destruct (raises env 0); [reflexivity|]; cbn.
  unfold has_assignment. rewrite length_pos_existsb.
  destruct (existsb (is_assignment u p) (user_programs d)); [reflexivity|]; cbn.
  destruct (raises env 1); [reflexivity|]; cbn.
  destruct (raises env 2); reflexivity.
Qed.

(** * The pending lookup *)

Lemma firstn1_flat_map A B (f : A -> list B) (l : list A) :
  (List.length (firstn 1 (flat_map f l)) =? 0)%nat
  = forallb (fun x => (List.length (f x) =? 0)%nat) l.
Proof.
  induction l as [|x l IH]; cbn; [reflexivity|].
  destruct (f x) as [|y ys]; cbn; [exact IH | reflexivity].
Qed.

Lemma flat_map_flag A B (y : B) (c : A -> bool) (l : list A) :
  (List.length (flat_map (fun x => if c x then [y] else []) l) =? 0)%nat
  = negb (existsb c l).
Proof.
  induction l as [|x l IH]; cbn; [reflexivity|].
  destruct (c x); cbn; [reflexivity | exact IH].
Qed.

Lemma joined_workout d u p e :
  existsb (fun w => (pr_workout_id e =? w_id w) && (pr_user_id e =? u)
                    && (w_program_id w =? p)
                    && negb (status_eqb (pr_status e) done)) (workouts d)
  = (pr_user_id e =? u) && in_program d p e
    && negb (status_eqb (pr_status e) done).
Proof.
  unfold in_program.
  induction (workouts d) as [|x l IH]; cbn.
  - now rewrite andb_false_r.
  - rewrite IH, (Z.eqb_sym (w_id x)).
    destruct (pr_workout_id e =? w_id x), (pr_user_id e =? u),
      (w_program_id x =? p), (status_eqb (pr_status e) done); cbn;
      try reflexivity; now rewrite ?orb_false_r, ?andb_false_r.
Qed.

Lemma select_pending_none d u p :
  (List.length (firstn 1 (pending_join u p d)) =? 0)%nat
  = negb (pending_in d u p).
Proof.
  unfold pending_join, pending_in.
  rewrite firstn1_flat_map.
  induction (user_progress d) as [|e l IH]; [reflexivity|].
  cbn [forallb existsb]. rewrite IH.
  rewrite (flat_map_flag 1
             (fun w => (pr_workout_id e =? w_id w) && (pr_user_id e =? u)
                       && (w_program_id w =? p)
                       && negb (status_eqb (pr_status e) done))).
  rewrite joined_workout, negb_orb. reflexivity.
Qed.

Arguments pending_join : simpl never.
Arguments pending_in : simpl never.
Arguments firstn : simpl never.

(** * The progress handler, statement by statement *)

Lemma markWorkoutDone_steps env wd u w :
  u <> 0 -> w <> 0 ->
  markWorkoutDone (Some u) (Some w) env wd =
  let label := "Error updating progress:" in
  if raises env 0 then (logged label wd, Internal)
  else
    let w1 := mkWorld (after_mark (NOW env 0) u w (db wd)) (console wd) in
    if negb (has_progress (db wd) u w)
    then (w1, mkResponse 404 (ErrorBody "Progress entry not found"))
    else if raises env 1 then (logged label w1, Internal)
    else
      match workout_program (db wd) w with
      | None => (w1, mkResponse 404 (ErrorBody "Workout not found"))
      | Some p =>
          if raises env 2 then (logged label w1, Internal)
          else if pending_in (db w1) u p then (w1, WorkoutMarked)
          else if raises env 3 then (logged label w1, Internal)
          else (mkWorld (set_user_programs (db w1)
                           (map (stamp (NOW env 3) u p) (user_programs (db wd))))
                        (console wd),
                WorkoutMarked)
      end.
Proof.
  intros Hu Hw.
  unfold markWorkoutDone, route, try_catch, bind, pool_query, when; cbn.
  apply Z.eqb_neq in Hu, Hw. rewrite Hu, Hw; cbn.
  destruct wd as [d c]; cbn.
  destruct (raises env 0); [reflexivity|]; cbn.
  rewrite length_zero_existsb. unfold has_progress.
  destruct (existsb (is_progress u w) (user_progress d)); [|reflexivity]; cbn.
  destruct (raises env 1); [reflexivity|]; cbn.
  rewrite length_zero_existsb, existsb_filter.
  unfold workout_program, row0; cbn.
  destruct (filter (fun x => w_id x =? w) (workouts d)) as [|x l] eqn:Hf; cbn;
    [reflexivity|].
  destruct (raises env 2); [reflexivity|]; cbn.
  rewrite select_pending_none. unfold after_mark.
  destruct (pending_in _ u (w_program_id x)); cbn; [reflexivity|].
  destruct (raises env 3); reflexivity.
Qed.

(** * The progress handler keeps the assigned pairs *)

Lemma stamp_pairs now u p (l : list UserProgram) :
  map (fun a => (up_user_id a, up_program_id a)) (map (stamp now u p) l)
  = map (fun a => (up_user_id a, up_program_id a)) l.
Proof.
  rewrite map_map. apply map_ext. intros a. unfold stamp.
  now destruct (is_assignment u p a).
Qed.

Lemma markWorkoutDone_pairs bu bw env w :
  pairs (tables (markWorkoutDone bu bw env w)) = pairs (db w).
Proof.
  assert (Hfalsy : falsy_num bu || falsy_num bw = true ->
                   tables (markWorkoutDone bu bw env w) = db w).
  { intros H. unfold tables, markWorkoutDone, route, try_catch.
    now rewrite H. }
  destruct bu as [u|]; [|now rewrite Hfalsy].
  destruct bw as [k|]; [|rewrite Hfalsy; cbn; now rewrite ?orb_true_r].
  destruct (Z.eq_dec u 0) as [->|Hu]; [now rewrite Hfalsy|].
  destruct (Z.eq_dec k 0) as [->|Hk];
    [rewrite Hfalsy; cbn; now rewrite ?orb_true_r|].
  unfold tables. rewrite markWorkoutDone_steps by assumption. cbn zeta.
  unfold pairs.
  destruct (raises env 0); [reflexivity|].
  destruct (negb (has_progress (db w) u k)); [reflexivity|].
  destruct (raises env 1); [reflexivity|].
  destruct (workout_program (db w) k) as [p|]; [|reflexivity].
  destruct (raises env 2); [reflexivity|].
  destruct (pending_in _ u p); [reflexivity|].
  destruct (raises env 3); [reflexivity|].
  cbn. apply stamp_pairs.
Qed.

(** * Assignment *)

Lemma NoDup_snoc A (x : A) (l : list A) :
  NoDup l -> ~ In x l -> NoDup (l ++ [x]).
Proof.
  induction 1 as [|y l Hy Hl IH]; cbn; intros Hx.
  - constructor; [easy | constructor].
  - constructor.
    + rewrite in_app_iff; cbn. intros [H|[H|[]]]; [easy | subst; tauto].
    + apply IH. tauto.
Qed.

Lemma no_assignment_not_in u p (l : list UserProgram) :
  existsb (is_assignment u p) l = false ->
  ~ In (u, p) (map (fun a => (up_user_id a, up_program_id a)) l).
Proof.
  induction l as [|a l IH]; cbn; [tauto|].
  intros H. apply orb_false_elim in H as [Ha Hl].
  intros [E|HIn]; [|now apply IH].
  injection E as E1 E2. unfold is_assignment in Ha.
  rewrite E1, E2, !Z.eqb_refl in Ha. discriminate.
Qed.

Lemma existsb_snoc A (P : A -> bool) (l : list A) (x : A) :
  existsb P (l ++ [x]) = existsb P l || P x.
Proof. rewrite existsb_app; cbn. now rewrite orb_false_r. Qed.

Lemma is_assignment_refl u p i c :
  is_assignment u p (mkUserProgram i u p c) = true.
Proof. unfold is_assignment; cbn. now rewrite !Z.eqb_refl. Qed.

(** C5. At most one Assignment per (user, program) pair: assignProgram,
    the only handler that inserts Assignments, keeps the pairs of
    user_programs free of duplicates whatever its outcome (and so does
    markWorkoutDone, the only other handler that writes the table); a
    successful call leaves an Assignment for the pair, and a call for a
    pair that has one answers Conflict (409) and leaves every table, and
    the console, as they were. *)
Theorem assignProgram_unique_pair (env1 env2 : Env) (w : World) (u p : Z) :
  u <> 0 -> p <> 0 ->
  unique_assignments (db w) ->
  raises env2 0 = false ->
  let r1 := assignProgram (Some u) (Some p) env1 w in
  unique_assignments (tables r1) /\
  (status (snd r1) = 201%nat -> has_assignment (tables r1) u p = true) /\
  (has_assignment (tables r1) u p = true ->
   assignProgram (Some u) (Some p) env2 (fst r1) = (fst r1, Conflict)) /\
  (forall bu bw env' w',
     unique_assignments (db w') ->
     unique_assignments (tables (markWorkoutDone bu bw env' w'))).
Proof.
  intros Hu Hp Huniq H0 r1. split; [|split; [|split]];
    [| | |intros bu bw env' w' H; unfold unique_assignments;
          now rewrite markWorkoutDone_pairs].
  - subst r1. unfold tables. rewrite assignProgram_steps by assumption.
    destruct (raises env1 0); [exact Huniq|].
    destruct (has_assignment (db w) u p) eqn:Hx; [exact Huniq|].
    destruct (raises env1 1); [exact Huniq|].
    assert (Hpush : unique_assignments
                      (push_user_program (db w)
                         (mkUserProgram (user_programs_seq (db w)) u p None))).
    { unfold unique_assignments, pairs; cbn. rewrite map_app; cbn.
      apply NoDup_snoc; [exact Huniq | now apply no_assignment_not_in]. }
    cbn. destruct (raises env1 2); exact Hpush.
  - subst r1. unfold tables. rewrite assignProgram_steps by assumption.
    destruct (raises env1 0); [discriminate|].
    destruct (has_assignment (db w) u p) eqn:Hx; [discriminate|].
    destruct (raises env1 1); [discriminate|].
    cbn. destruct (raises env1 2); [discriminate|]. intros _.
    unfold has_assignment; cbn.
    now rewrite existsb_snoc, is_assignment_refl, orb_true_r.
  - intros Hx. rewrite assignProgram_steps by assumption.
    unfold tables in Hx. now rewrite H0, Hx.
Qed.

Lemma assignProgram_unique_pair_witness :
  unique_assignments (tables (assignProgram (Some 1) (Some 1) (quiet 10)
                                            (mkWorld gym []))) /\
  assignProgram (Some 1) (Some 1) (quiet 20) (mkWorld gym_assigned [])
  = (mkWorld gym_assigned [], Conflict).
Proof.
  assert (Hn : unique_assignments gym) by constructor.
  destruct (@assignProgram_unique_pair (quiet 10) (quiet 20) (mkWorld gym [])
              1 1 ltac:(lia) ltac:(lia) Hn eq_refl) as (H1 & H2 & H3 & _).
  split; [exact H1|].
  exact (H3 eq_refl).
Defined.

(** C6. A successful assignProgram(u, p) for a program with N workouts
    answers 201 with the new Assignment, whose completion timestamp is
    null, and appends exactly N ProgressEntry rows for u, one per workout
    of p in table order, all pending; with N = 0 nothing is appended and
    the completion timestamp is null all the same. *)
Theorem assignProgram_initialises_progress
        (env : Env) (w : World) (u p : Z) (N : nat) :
  u <> 0 -> p <> 0 ->
  no_fault env ->
  has_assignment (db w) u p = false ->
  List.length (program_workouts (db w) p) = N ->
  let r := assignProgram (Some u) (Some p) env w in
  let a := mkUserProgram (user_programs_seq (db w)) u p None in
  snd r = mkResponse 201
            (AssignedBody "Program assigned and progress initialized" (Some a))
  /\ user_programs (tables r) = user_programs (db w) ++ [a]
  /\ assignment_of (tables r) u p = Some a
  /\ completed_at a = None
  /\ exists new,
       user_progress (tables r) = user_progress (db w) ++ new
       /\ List.length new = N
       /\ map pr_workout_id new = map w_id (program_workouts (db w) p)
       /\ Forall (fun e => pr_user_id e = u /\ pr_status e = pending) new.
Proof.
  intros Hu Hp Hq Hx HN r a. subst r. unfold tables.
  rewrite assignProgram_steps by assumption.
  rewrite !Hq, Hx. cbn.
  repeat split.
  - unfold assignment_of; cbn. rewrite filter_app; cbn.
    unfold has_assignment in Hx. rewrite (existsb_false_filter _ _ Hx).
    now rewrite is_assignment_refl.
  - exists (new_progress (NOW env 2) u p (db w)).
    unfold new_progress, program_workouts in *.
    repeat split.
    + now rewrite length_map.
    + now rewrite map_map.
    + apply Forall_forall. intros e He.
      apply in_map_iff in He as (x & <- & _). now cbn.
Qed.

Lemma assignProgram_initialises_progress_witness :
  assignment_of
    (tables (assignProgram (Some 1) (Some 1) (quiet 10) (mkWorld gym [])))
    1 1 = Some (mkUserProgram 1 1 1 None)
  /\ assignment_of
       (tables (assignProgram (Some 1) (Some 5) (quiet 10) (mkWorld gym [])))
       1 5 = Some (mkUserProgram 1 1 5 None).
Proof.
  split.
  - destruct (@assignProgram_initialises_progress (quiet 10) (mkWorld gym [])
                1 1 2 ltac:(lia) ltac:(lia) (fun _ => eq_refl) eq_refl eq_refl)
      as (_ & _ & H & _).
    exact H.
  - destruct (@assignProgram_initialises_progress (quiet 10) (mkWorld gym [])
                1 5 0 ltac:(lia) ltac:(lia) (fun _ => eq_refl) eq_refl eq_refl)
      as (_ & _ & H & _).
    exact H.
Defined.

Lemma assignProgram_status env w bu bp :
  In (status (snd (assignProgram bu bp env w))) [400; 409; 201; 500]%nat.
Proof.
  assert (Hfalsy : falsy_num bu || falsy_num bp = true ->
                   status (snd (assignProgram bu bp env w)) = 400%nat).
  { intros H. unfold assignProgram, route, try_catch, Number. now rewrite H. }
  destruct bu as [u|]; [|left; symmetry; now apply Hfalsy].
  destruct bp as [p|];
    [|left; symmetry; apply Hfalsy; cbn; now rewrite orb_true_r].
  destruct (Z.eq_dec u 0) as [->|Hu]; [left; symmetry; now apply Hfalsy|].
  destruct (Z.eq_dec p 0) as [->|Hp];
    [left; symmetry; apply Hfalsy; cbn; now rewrite orb_true_r|].
  rewrite assignProgram_steps by assumption.
  destruct (raises env 0); [cbn; tauto|].
  destruct (has_assignment (db w) u p); [cbn; tauto|].
  destruct (raises env 1); [cbn; tauto|].
  cbn. destruct (raises env 2); cbn; tauto.
Qed.

(** C4 (amended). assignProgram does not look the user or the program up:
    it never answers NotFound (404). For ids that resolve to no User or no
    Program row (non-zero, pair not yet assigned), the call succeeds with
    201 and leaves an Assignment for the pair when the store accepts the
    statements, and answers Internal (500) with the tables unchanged when
    the store rejects the Assignment insert. *)
Theorem assignProgram_no_existence_check (env : Env) (w : World) (u p : Z) :
  u <> 0 -> p <> 0 ->
  has_assignment (db w) u p = false ->
  user_exists (db w) u = false \/ program_exists (db w) p = false ->
  let r := assignProgram (Some u) (Some p) env w in
  status (snd r) <> 404%nat
  /\ (no_fault env ->
      status (snd r) = 201%nat /\ has_assignment (tables r) u p = true)
  /\ (raises env 0 = false -> raises env 1 = true ->
      snd r = Internal /\ tables r = db w).
Proof.
  intros Hu Hp Hx _ r. split; [|split].
  - pose proof (assignProgram_status env w (Some u) (Some p)) as H.
    fold r in H. cbn in H. intros E. rewrite E in H.
    repeat destruct H as [H|H]; try discriminate H; exact H.
  - intros Hq. subst r. unfold tables.
    rewrite assignProgram_steps by assumption. rewrite !Hq, Hx. cbn.
    split; [reflexivity|]. unfold has_assignment; cbn.
    now rewrite existsb_snoc, is_assignment_refl, orb_true_r.
  - intros H0 H1. subst r. unfold tables.
    rewrite assignProgram_steps by assumption. now rewrite H0, Hx, H1.
Qed.

Lemma assignProgram_no_existence_check_witness :
  status (snd (assignProgram (Some 7) (Some 3) (quiet 10)
                             (mkWorld empty_db []))) = 201%nat
  /\ has_assignment
       (tables (assignProgram (Some 7) (Some 3) (quiet 10)
                              (mkWorld empty_db []))) 7 3 = true.
Proof.
  destruct (@assignProgram_no_existence_check (quiet 10) (mkWorld empty_db [])
              7 3 ltac:(lia) ltac:(lia) eq_refl (or_introl eq_refl))
    as (_ & H & _).
  exact (H (fun _ => eq_refl)).
Defined.

(** C4, as stated, fails: user 7 and program 3 do not exist, yet the call
    answers 201 and creates the Assignment when the store accepts the
    insert, and answers 500, not 404, when the store rejects it. *)
Lemma assignProgram_not_found_counterexample :
  user_exists empty_db 7 = false
  /\ program_exists empty_db 3 = false
  /\ assignProgram (Some 7) (Some 3) (quiet 10) (mkWorld empty_db [])
     = (mkWorld (mkDb [] [] [] [mkUserProgram 1 7 3 None] 2 [] [] 1 []) [],
        mkResponse 201
          (AssignedBody "Program assigned and progress initialized"
                        (Some (mkUserProgram 1 7 3 None))))
  /\ snd (assignProgram (Some 7) (Some 3) (failing_at 1 10)
                        (mkWorld empty_db [])) = Internal
  /\ status (snd (assignProgram (Some 7) (Some 3) (quiet 10)
                                (mkWorld empty_db []))) <> 404%nat
  /\ status (snd (assignProgram (Some 7) (Some 3) (failing_at 1 10)
                                (mkWorld empty_db []))) <> 404%nat.
Proof. repeat split; vm_compute; discriminate. Qed.

(** * Atomicity *)

(** C2 (amended). The statements of assignProgram and markWorkoutDone run
    one by one, outside any transaction: a failure leaves the tables as
    they were only when it comes before the first write. When the bulk
    ProgressEntry insert raises after the Assignment insert, the call
    answers Internal (500) and the Assignment row stays; when a statement
    that follows the status update of markWorkoutDone raises, the call
    answers Internal and the entry stays done. *)
Theorem mutations_not_atomic (env : Env) (w : World) (u p wk : Z) :
  u <> 0 -> p <> 0 -> wk <> 0 ->
  let ra := assignProgram (Some u) (Some p) env w in
  let rm := markWorkoutDone (Some u) (Some wk) env w in
  (has_assignment (db w) u p = false ->
   raises env 0 = false -> raises env 1 = false -> raises env 2 = true ->
   snd ra = Internal
   /\ tables ra = push_user_program (db w)
                    (mkUserProgram (user_programs_seq (db w)) u p None))
  /\ (raises env 0 = true
      \/ (raises env 0 = false /\ has_assignment (db w) u p = false
          /\ raises env 1 = true) ->
      snd ra = Internal /\ tables ra = db w)
  /\ (has_progress (db w) u wk = true ->
      raises env 0 = false ->
      raises env 1 = true
      \/ (exists q, workout_program (db w) wk = Some q
                    /\ raises env 1 = false
                    /\ (raises env 2 = true
                        \/ (raises env 2 = false
                            /\ pending_in (after_mark (NOW env 0) u wk (db w))
                                          u q = false
                            /\ raises env 3 = true))) ->
      snd rm = Internal /\ tables rm = after_mark (NOW env 0) u wk (db w))
  /\ (raises env 0 = true -> snd rm = Internal /\ tables rm = db w).
Proof.
  intros Hu Hp Hw ra rm. subst ra rm. unfold tables.
  rewrite assignProgram_steps, markWorkoutDone_steps by assumption.
  repeat apply conj.
  - intros Hx H0 H1 H2. now rewrite H0, Hx, H1; cbn; rewrite H2.
  - intros [H0|(H0 & Hx & H1)]; [now rewrite H0 | now rewrite H0, Hx, H1].
  - intros Hx H0 H. cbn. rewrite H0, Hx. cbn.
    destruct H as [H1|(q & Hq & H1 & H)]; [now rewrite H1|].
    rewrite H1, Hq.
    destruct H as [H2|(H2 & Hpend & H3)]; [now rewrite H2|].
    now rewrite H2, Hpend, H3.
  - intros H0. cbn. now rewrite H0.
Qed.

Lemma mutations_not_atomic_witness :
  tables (assignProgram (Some 1) (Some 1) (failing_at 2 10) (mkWorld gym []))
  = push_user_program gym (mkUserProgram 1 1 1 None)
  /\ tables (markWorkoutDone (Some 1) (Some 1) (failing_at 1 50)
                             (mkWorld gym_assigned []))
     = after_mark 50 1 1 gym_assigned.
Proof.
  destruct (@mutations_not_atomic (failing_at 2 10) (mkWorld gym []) 1 1 1
              ltac:(lia) ltac:(lia) ltac:(lia)) as (Ha & _).
  destruct (@mutations_not_atomic (failing_at 1 50) (mkWorld gym_assigned [])
              1 1 1 ltac:(lia) ltac:(lia) ltac:(lia)) as (_ & _ & Hm & _).
  split.
  - exact (proj2 (Ha eq_refl eq_refl eq_refl eq_refl)).
  - exact (proj2 (Hm eq_refl eq_refl (or_introl eq_refl))).
Defined.

(** C2, as stated, fails: the bulk insert raises, the call answers 500 and
    the Assignment row is still there; the workout lookup raises, the call
    answers 500 and the entry is done. *)
Lemma mutations_atomic_counterexample :
  assignProgram (Some 1) (Some 1) (failing_at 2 10) (mkWorld gym [])
  = (mkWorld (mkDb (users gym) (programs gym) (workouts gym)
                   [mkUserProgram 1 1 1 None] 2 [] [] 1 [])
             ["Error assigning program: error: query failed"],
     Internal)
  /\ user_programs gym = []
  /\ markWorkoutDone (Some 1) (Some 1) (failing_at 1 50)
                     (mkWorld gym_assigned [])
     = (mkWorld (mkDb (users gym) (programs gym) (workouts gym)
                      [mkUserProgram 1 1 1 None] 2
                      [mkUserProgress 1 1 done 50;
                       mkUserProgress 1 2 pending 10]
                      [] 1 [])
                ["Error updating progress: error: query failed"],
        Internal)
  /\ user_progress gym_assigned
     = [mkUserProgress 1 1 pending 10; mkUserProgress 1 2 pending 10]
  /\ user_programs
       (tables (assignProgram (Some 1) (Some 1) (failing_at 2 10)
                              (mkWorld gym [])))
     <> user_programs gym
  /\ user_progress
       (tables (markWorkoutDone (Some 1) (Some 1) (failing_at 1 50)
                                (mkWorld gym_assigned [])))
     <> user_progress gym_assigned.
Proof. repeat split; vm_compute; discriminate. Qed.

(** * Progress and completion *)

Lemma stamp_keeps_pair now u p u' p' a :
  is_assignment u' p' (stamp now u p a) = is_assignment u' p' a.
Proof. unfold stamp. now destruct (is_assignment u p a). Qed.

Lemma assignment_of_stamp now u p (l : list UserProgram) :
  hd_error (filter (is_assignment u p) (map (stamp now u p) l))
  = option_map (stamp now u p) (hd_error (filter (is_assignment u p) l)).
Proof.
  induction l as [|a l IH]; cbn; [reflexivity|].
  rewrite stamp_keeps_pair.
  destruct (is_assignment u p a); [reflexivity | exact IH].
Qed.

Lemma mark_done_keeps_workout now u w e :
  pr_user_id (mark_done now u w e) = pr_user_id e
  /\ pr_workout_id (mark_done now u w e) = pr_workout_id e.
Proof. unfold mark_done. now destruct (is_progress u w e). Qed.

(** After the status update, the only entries of [u] for program [p] that
    can still be pending are those of the other workouts. *)
Lemma no_pending_after_mark now u w p d :
  (forall e, In e (user_progress d) ->
             pr_user_id e = u -> pr_workout_id e <> w ->
             in_program d p e = true -> pr_status e = done) ->
  pending_in (after_mark now u w d) u p = false.
Proof.
  intros H. apply not_true_is_false. intros Hex.
  unfold pending_in, after_mark in Hex; cbn in Hex.
  apply existsb_exists in Hex as (e' & He' & Hc).
  apply in_map_iff in He' as (e & <- & He).
  apply andb_prop in Hc as [Hc Hs]. apply andb_prop in Hc as [Hcu Hcp].
  unfold in_program in Hcp; cbn in Hcp.
  destruct (mark_done_keeps_workout now u w e) as [E1 E2].
  rewrite E1 in Hcu. rewrite E2 in Hcp.
  unfold mark_done in Hs.
  destruct (is_progress u w e) eqn:Hi; [discriminate Hs|].
  apply Z.eqb_eq in Hcu.
  assert (Hw : pr_workout_id e <> w).
  { intros E. unfold is_progress in Hi.
    rewrite Hcu, E, !Z.eqb_refl in Hi. discriminate. }
  rewrite (H e He Hcu Hw Hcp) in Hs. discriminate.
Qed.

(** With the entry and the workout there and the store answering, the
    handler comes down to the status update and the stamp decision. *)
Lemma markWorkoutDone_completes env wd u w p :
  u <> 0 -> w <> 0 ->
  no_fault env ->
  has_progress (db wd) u w = true ->
  workout_program (db wd) w = Some p ->
  markWorkoutDone (Some u) (Some w) env wd =
  let d1 := after_mark (NOW env 0) u w (db wd) in
  (mkWorld (if pending_in d1 u p then d1
            else set_user_programs d1
                   (map (stamp (NOW env 3) u p) (user_programs (db wd))))
           (console wd),
   WorkoutMarked).
Proof.
  intros Hu Hw Hq Hx Hprog.
  rewrite markWorkoutDone_steps by assumption. cbn zeta.
  rewrite !Hq, Hx, Hprog. cbn [negb db].
  now destruct (pending_in (after_mark (NOW env 0) u w (db wd)) u p).
Qed.

Lemma assignment_of_stamped now u p d a :
  assignment_of d u p = Some a ->
  hd_error (filter (is_assignment u p)
                   (map (stamp now u p) (user_programs d)))
  = Some (mkUserProgram (up_id a) (up_user_id a) (up_program_id a) (Some now)).
Proof.
  unfold assignment_of. intros Ha.
  rewrite assignment_of_stamp, Ha; cbn. unfold stamp.
  assert (Hi : is_assignment u p a = true).
  { destruct (filter (is_assignment u p) (user_programs d))
      as [|b l] eqn:Hf; [discriminate|].
    cbn in Ha. injection Ha as ->.
    assert (Hin : In a (filter (is_assignment u p) (user_programs d)))
      by (rewrite Hf; now left).
    now apply filter_In in Hin. }
  now rewrite Hi.
Qed.

(** C1 (amended). When the entry and the workout exist and the store
    answers, markWorkoutDone(u, w) answers 200, also on an Assignment that
    is already complete; there is no already-set guard on the completion
    stamp: whenever no entry of u for w's program is left pending after the
    status update, the completion timestamp of the Assignment is written
    with the time of this call, whatever it held before, and it is left as
    it was only when some entry is still pending. *)
Theorem markWorkoutDone_restamps (env : Env) (wd : World) (u w p : Z) :
  u <> 0 -> w <> 0 ->
  no_fault env ->
  has_progress (db wd) u w = true ->
  workout_program (db wd) w = Some p ->
  let r := markWorkoutDone (Some u) (Some w) env wd in
  snd r = WorkoutMarked
  /\ user_programs (tables r)
     = (if pending_in (after_mark (NOW env 0) u w (db wd)) u p
        then user_programs (db wd)
        else map (stamp (NOW env 3) u p) (user_programs (db wd)))
  /\ (pending_in (after_mark (NOW env 0) u w (db wd)) u p = false ->
      forall a, assignment_of (db wd) u p = Some a ->
                assignment_of (tables r) u p
                = Some (mkUserProgram (up_id a) (up_user_id a)
                                      (up_program_id a) (Some (NOW env 3)))).
Proof.
  intros Hu Hw Hq Hx Hprog r. subst r. unfold tables.
  rewrite (markWorkoutDone_completes wd Hu Hw Hq Hx Hprog). cbn zeta.
  cbn [fst snd db].
  destruct (pending_in (after_mark (NOW env 0) u w (db wd)) u p) eqn:Hpend.
  - split; [reflexivity|]. split; [reflexivity|]. discriminate.
  - split; [reflexivity|]. split; [reflexivity|]. intros _ a Ha.
    unfold assignment_of at 1; cbn. now apply assignment_of_stamped.
Qed.

Lemma markWorkoutDone_restamps_witness :
  assignment_of gym_completed 1 1 = Some (mkUserProgram 1 1 1 (Some 100))
  /\ assignment_of
       (tables (markWorkoutDone (Some 1) (Some 2) (quiet 200)
                                (mkWorld gym_completed [])))
       1 1 = Some (mkUserProgram 1 1 1 (Some 200)).
Proof.
  split; [reflexivity|].
  destruct (@markWorkoutDone_restamps (quiet 200) (mkWorld gym_completed [])
              1 2 1 ltac:(lia) ltac:(lia) (fun _ => eq_refl) eq_refl eq_refl)
    as (_ & _ & H).
  exact (H eq_refl _ eq_refl).
Defined.

(** C1, as stated, fails: the Assignment of client 1 to program 1 was
    completed at time 100; marking workout 2 again at time 200 answers 200
    and moves the completion timestamp to 200. *)
Lemma markWorkoutDone_double_stamp_counterexample :
  map completed_at (user_programs gym_completed) = [Some 100]
  /\ has_progress gym_completed 1 2 = true
  /\ snd (markWorkoutDone (Some 1) (Some 2) (quiet 200)
                          (mkWorld gym_completed [])) = WorkoutMarked
  /\ map completed_at
       (user_programs
          (tables (markWorkoutDone (Some 1) (Some 2) (quiet 200)
                                   (mkWorld gym_completed []))))
     = [Some 200]
  /\ map completed_at
       (user_programs
          (tables (markWorkoutDone (Some 1) (Some 2) (quiet 200)
                                   (mkWorld gym_completed []))))
     <> map completed_at (user_programs gym_completed).
Proof. repeat split. discriminate. Qed.

(** C10. Completion is re-evaluated over the entries the user has, not
    over the workouts of the program: when every other entry of u for a
    workout of w's program is done, markWorkoutDone(u, w) answers 200 and
    stamps the Assignment of u to that program with the time of the call,
    whatever other workouts the program holds (for which u has no entry). *)
Theorem markWorkoutDone_ignores_untracked_workouts
        (env : Env) (wd : World) (u w p : Z) :
  u <> 0 -> w <> 0 ->
  no_fault env ->
  has_progress (db wd) u w = true ->
  workout_program (db wd) w = Some p ->
  (forall e, In e (user_progress (db wd)) ->
             pr_user_id e = u -> pr_workout_id e <> w ->
             in_program (db wd) p e = true -> pr_status e = done) ->
  let r := markWorkoutDone (Some u) (Some w) env wd in
  snd r = WorkoutMarked
  /\ user_programs (tables r)
     = map (stamp (NOW env 3) u p) (user_programs (db wd))
  /\ (forall a, In a (user_programs (tables r)) ->
                up_user_id a = u -> up_program_id a = p ->
                completed_at a = Some (NOW env 3))
  /\ (has_assignment (db wd) u p = true ->
      exists a, assignment_of (tables r) u p = Some a
                /\ completed_at a = Some (NOW env 3)).
Proof.
  intros Hu Hw Hq Hx Hprog Hdone r.
  pose proof (@no_pending_after_mark (NOW env 0) u w p (db wd) Hdone) as Hpend.
  assert (Hups : user_programs (tables r)
                 = map (stamp (NOW env 3) u p) (user_programs (db wd))).
  { subst r. unfold tables.
    rewrite (markWorkoutDone_completes wd Hu Hw Hq Hx Hprog). cbn zeta.
    now rewrite Hpend. }
  split.
  { subst r. now rewrite (markWorkoutDone_completes wd Hu Hw Hq Hx Hprog). }
  split; [exact Hups|]. split.
  - rewrite Hups. intros a Hin Eu Ep.
    apply in_map_iff in Hin as (b & Hb & _). subst a. unfold stamp in *.
    destruct (is_assignment u p b) eqn:Hi; [reflexivity|].
    unfold is_assignment in Hi.
    rewrite Eu, Ep, !Z.eqb_refl in Hi. discriminate.
  - intros Hex. unfold has_assignment in Hex. rewrite existsb_filter in Hex.
    destruct (filter (is_assignment u p) (user_programs (db wd)))
      as [|b l] eqn:Hf; [discriminate|].
    eexists. split.
    + unfold assignment_of at 1. rewrite Hups.
      apply assignment_of_stamped. unfold assignment_of. now rewrite Hf.
    + reflexivity.
Qed.

Lemma markWorkoutDone_ignores_untracked_workouts_witness :
  program_workouts gym_extended 1
  = [mkWorkout 1 1; mkWorkout 2 1; mkWorkout 3 1]
  /\ has_progress gym_extended 1 3 = false
  /\ user_programs
       (tables (markWorkoutDone (Some 1) (Some 2) (quiet 100)
                                (mkWorld gym_extended [])))
     = [mkUserProgram 1 1 1 (Some 100)].
Proof.
  split; [reflexivity|]. split; [reflexivity|].
  refine (proj1 (proj2 (@markWorkoutDone_ignores_untracked_workouts
                          (quiet 100) (mkWorld gym_extended []) 1 2 1
                          ltac:(lia) ltac:(lia) (fun _ => eq_refl)
                          eq_refl eq_refl _))).
  cbn. intros e [<-|[<-|[]]] _ Hw _; [reflexivity | now elim Hw].
Defined.

(** * Feedback *)

Lemma hd_error_map A B (f : A -> B) (l : list A) :
  hd_error (map f l) = option_map f (hd_error l).
Proof. now destruct l. Qed.

Lemma submitFeedback_steps env w u p m :
  u <> 0 -> p <> 0 -> m <> "" ->
  submitFeedback (Some u) (Some p) (Some m) env w =
  if raises env 0 then (logged "Comment error:" w, Internal)
  else
    match assignment_of (db w) u p with
    | None => (w, NotAssigned)
    | Some a =>
        match completed_at a with
        | None => (w, NotCompleted)
        | Some _ =>
            if raises env 1 then (logged "Comment error:" w, Internal)
            else if has_comment (db w) u p then (w, DuplicateFeedback)
            else if raises env 2 then (logged "Comment error:" w, Internal)
            else
              let c := mkComment (comments_seq (db w)) u p m (NOW env 2) in
              (mkWorld (push_comment (db w) c) (console w),
               mkResponse 201
                 (CommentBody "Comment submitted successfully" (Some c)))
        end
    end.
Proof.
  intros Hu Hp Hm.
  unfold submitFeedback, route, try_catch, bind, pool_query; cbn.
  apply Z.eqb_neq in Hu, Hp. apply String.eqb_neq in Hm.
  rewrite Hu, Hp, Hm; cbn.
  destruct w as [d c]; cbn.
  destruct (raises env 0); [reflexivity|]; cbn.
  rewrite length_zero_existsb, existsb_filter.
  unfold assignment_of, row0; cbn.
  destruct (filter (is_assignment u p) (user_programs d)) as [|a l]; cbn;
    [reflexivity|].
  destruct (completed_at a); cbn; [|reflexivity].
  destruct (raises env 1); [reflexivity|]; cbn.
  rewrite length_pos_existsb. unfold has_comment.
  destruct (existsb (is_comment u p) (comments d)); [reflexivity|]; cbn.
  destruct (raises env 2); reflexivity.
Qed.

(** C7. submitFeedback checks, in this order and each with its own answer:
    no Assignment for the pair: NotAssigned; completion timestamp null:
    NotCompleted; a Feedback row for the pair: DuplicateFeedback. When all
    three hold the call answers 201 and appends exactly one Feedback row,
    and the same submission repeated answers DuplicateFeedback. *)
Theorem submitFeedback_preconditions
        (env env2 : Env) (w : World) (u p : Z) (m : string) :
  u <> 0 -> p <> 0 -> m <> "" ->
  no_fault env -> no_fault env2 ->
  let r := submitFeedback (Some u) (Some p) (Some m) env w in
  (assignment_of (db w) u p = None -> r = (w, NotAssigned))
  /\ (forall a, assignment_of (db w) u p = Some a ->
                completed_at a = None -> r = (w, NotCompleted))
  /\ (forall a t, assignment_of (db w) u p = Some a ->
                  completed_at a = Some t ->
                  has_comment (db w) u p = true ->
                  r = (w, DuplicateFeedback))
  /\ (forall a t, assignment_of (db w) u p = Some a ->
                  completed_at a = Some t ->
                  has_comment (db w) u p = false ->
                  let c := mkComment (comments_seq (db w)) u p m (NOW env 2) in
                  snd r = mkResponse 201
                            (CommentBody "Comment submitted successfully"
                                         (Some c))
                  /\ tables r = push_comment (db w) c
                  /\ comments (tables r) = comments (db w) ++ [c]
                  /\ submitFeedback (Some u) (Some p) (Some m) env2 (fst r)
                     = (fst r, DuplicateFeedback))
  /\ NotAssigned <> NotCompleted
  /\ NotCompleted <> DuplicateFeedback
  /\ NotAssigned <> DuplicateFeedback.
Proof.
  intros Hu Hp Hm Hq Hq2 r. subst r. unfold tables.
  rewrite submitFeedback_steps by assumption. rewrite !Hq.
  repeat apply conj; try discriminate.
  - now intros ->.
  - now intros a -> ->.
  - now intros a t -> -> ->.
  - intros a t Ha Ht Hc. rewrite Ha, Ht, Hc. cbn.
    repeat split.
    rewrite submitFeedback_steps by assumption. rewrite !Hq2.
    unfold assignment_of, has_comment in *; cbn.
    rewrite Ha, Ht, existsb_snoc.
    unfold is_comment at 2; cbn. now rewrite !Z.eqb_refl, orb_true_r.
Qed.

Lemma submitFeedback_preconditions_witness :
  submitFeedback (Some 1) (Some 1) (Some "great") (quiet 110)
                 (mkWorld gym_assigned [])
  = (mkWorld gym_assigned [], NotCompleted)
  /\ comments (tables (submitFeedback (Some 1) (Some 1) (Some "great")
                                      (quiet 110) (mkWorld gym_completed [])))
     = [mkComment 1 1 1 "great" 110].
Proof.
  assert (Hm : "great" <> "") by discriminate.
  destruct (@submitFeedback_preconditions (quiet 110) (quiet 120)
              (mkWorld gym_assigned []) 1 1 "great" ltac:(lia) ltac:(lia) Hm
              (fun _ => eq_refl) (fun _ => eq_refl)) as (_ & H1 & _).
  destruct (@submitFeedback_preconditions (quiet 110) (quiet 120)
              (mkWorld gym_completed []) 1 1 "great" ltac:(lia) ltac:(lia) Hm
              (fun _ => eq_refl) (fun _ => eq_refl)) as (_ & _ & _ & H2 & _).
  split.
  - exact (H1 _ eq_refl eq_refl).
  - exact (proj1 (proj2 (proj2 (H2 _ _ eq_refl eq_refl eq_refl)))).
Defined.

(** * Administration *)

Lemma authAdmin_denies req_user next env w :
  option_map caller_role req_user <> Some "super_admin" ->
  authAdmin req_user next env w = (w, Forbidden).
Proof.
  intros H. unfold authAdmin.
  destruct req_user as [c|]; cbn; [|reflexivity].
  destruct (String.eqb (caller_role c) "super_admin") eqn:E; [|reflexivity].
  apply String.eqb_eq in E. cbn in H. now rewrite E in H.
Qed.

(** C8. A caller whose role is not super_admin gets Forbidden (403, which
    is not the 404 of a missing row) from role change, password reset and
    activation toggle alike, and the store is left as it was: no User row
    is changed and no AuditRecord is written. *)
Theorem admin_mutations_forbidden
        (bcrypt_hash : string -> string) (env : Env) (w : World)
        (req_user : option Caller) (id : Z) (role new_password : option string)
        (user_id : option Z) (active : option bool) :
  option_map caller_role req_user <> Some "super_admin" ->
  changeUserRole req_user id role env w = (w, Forbidden)
  /\ resetPassword bcrypt_hash req_user id new_password env w = (w, Forbidden)
  /\ setUserActive req_user user_id active env w = (w, Forbidden)
  /\ status Forbidden = 403%nat
  /\ Forbidden <> mkResponse 404 (ErrorBody "User not found").
Proof.
  intros H. unfold changeUserRole, resetPassword, setUserActive.
  rewrite !authAdmin_denies by exact H.
  repeat split. discriminate.
Qed.

Lemma admin_mutations_forbidden_witness :
  changeUserRole (Some coach2) 1 (Some "super_admin") (quiet 10)
                 (mkWorld gym [])
  = (mkWorld gym [], Forbidden).
Proof.
  assert (H : option_map caller_role (Some coach2) <> Some "super_admin")
    by discriminate.
  exact (proj1 (@admin_mutations_forbidden (fun s => s) (quiet 10)
                  (mkWorld gym []) (Some coach2) 1 (Some "super_admin")
                  None None None H)).
Defined.

Ltac split_ifs :=
  repeat match goal with
         | |- context [if ?c then _ else _] => destruct c
         end.

(** C3. No admin mutation writes an AuditRecord: role change, password
    reset and activation toggle leave audit_logs as it was on every input;
    in particular super admin 3 changes the role of user 1 to coach, the
    call answers 200 "Role updated", and audit_logs stays empty. *)
Theorem admin_mutations_write_no_audit_record
        (bcrypt_hash : string -> string) (env : Env) (w : World)
        (req_user : option Caller) (id : Z) (role new_password : option string)
        (user_id : option Z) (active : option bool) :
  audit_logs (tables (changeUserRole req_user id role env w))
  = audit_logs (db w)
  /\ audit_logs (tables (resetPassword bcrypt_hash req_user id new_password
                                       env w))
     = audit_logs (db w)
  /\ audit_logs (tables (setUserActive req_user user_id active env w))
     = audit_logs (db w)
  /\ changeUserRole (Some admin3) 1 (Some "coach") (quiet 10) (mkWorld gym [])
     = (mkWorld (set_users gym
                   [mkUser 1 "h1" "coach" true; mkUser 2 "h2" "coach" true;
                    mkUser 3 "h3" "super_admin" true]) [],
        mkResponse 200 (MessageBody "Role updated"))
  /\ audit_logs (tables (changeUserRole (Some admin3) 1 (Some "coach")
                                        (quiet 10) (mkWorld gym []))) = [].
Proof.
  unfold tables.
  repeat apply conj; try reflexivity.
  - unfold changeUserRole, authAdmin, route, try_catch, bind, pool_query.
    cbn. split_ifs; reflexivity.
  - unfold resetPassword, authAdmin, route, try_catch, bind, pool_query.
    cbn. split_ifs; reflexivity.
  - unfold setUserActive, authAdmin, route, try_catch, bind, pool_query.
    cbn. split_ifs; reflexivity.
Qed.

(** * The audit recorder *)

(** C9. logAudit returns normally on every input, whether or not its
    insert raises: a failure is written to the console, leaves the tables
    as they were and never propagates, so whatever a caller does after
    awaiting logAudit still runs; when the insert goes through, one
    AuditRecord with the given actor, action, target and details is
    appended. *)
Theorem logAudit_never_throws
        (k : nat) (actorId : Z) (action_ : string) (targetId : option Z)
        (details_ : option string) (env : Env) (w : World) :
  exists w',
    logAudit k actorId action_ targetId details_ env w = (w', Next tt)
    /\ (forall A (m : M A),
          bind (logAudit k actorId action_ targetId details_) (fun _ => m)
               env w = m env w')
    /\ (raises env k = true ->
        db w' = db w
        /\ console w'
           = console w ++ ["Audit logging failed: error: query failed"])
    /\ (raises env k = false ->
        db w' = push_audit_log (db w)
                  (mkAuditLog actorId action_ targetId details_ (NOW env k))
        /\ console w' = console w).
Proof.
  unfold bind at 1.
  unfold logAudit, try_catch, bind, pool_query, console_error, ret; cbn.
  destruct (raises env k); eexists; repeat split; try discriminate.
Qed.

Lemma logAudit_never_throws_witness :
  logAudit 0 3 "role_change" (Some 1) None (failing_at 0 10) (mkWorld gym [])
  = (mkWorld gym ["Audit logging failed: error: query failed"], Next tt).
Proof.
  destruct (@logAudit_never_throws 0 3 "role_change" (Some 1) None
              (failing_at 0 10) (mkWorld gym [])) as (w' & H & _ & Hf & _).
  destruct (Hf eq_refl) as [Hd Hc].
  rewrite H. destruct w' as [d c]. cbn in Hd, Hc. now rewrite Hd, Hc.
Defined.

(** * What a request can do to the tables *)

Lemma assignProgram_shape env w bu bp :
  assignProgram bu bp env w
  = (w, mkResponse 400 (ErrorBody "Missing or invalid user/program"))
  \/ exists u p,
       bu = Some u /\ bp = Some p /\ u <> 0 /\ p <> 0
       /\ (tables (assignProgram bu bp env w) = db w
           \/ has_assignment (db w) u p = false
              /\ let a := mkUserProgram (user_programs_seq (db w)) u p None in
                 (tables (assignProgram bu bp env w)
                  = push_user_program (db w) a
                  \/ tables (assignProgram bu bp env w)
                     = set_user_progress (push_user_program (db w) a)
                         (user_progress (db w)
                          ++ new_progress (NOW env 2) u p (db w)))).
Proof.
  assert (Hfalsy : falsy_num bu || falsy_num bp = true ->
                   assignProgram bu bp env w
                   = (w, mkResponse 400
                           (ErrorBody "Missing or invalid user/program"))).
  { intros H. unfold assignProgram, route, try_catch, Number. now rewrite H. }
  destruct bu as [u|]; [|left; now apply Hfalsy].
  destruct bp as [p|]; [|left; apply Hfalsy; cbn; now rewrite orb_true_r].
  destruct (Z.eq_dec u 0) as [->|Hu]; [left; now apply Hfalsy|].
  destruct (Z.eq_dec p 0) as [->|Hp];
    [left; apply Hfalsy; cbn; now rewrite orb_true_r|].
  right. exists u, p. repeat (split; [easy|]).
  unfold tables. rewrite assignProgram_steps by assumption.
  destruct (raises env 0); [now left|].
  destruct (has_assignment (db w) u p); [now left|].
  destruct (raises env 1); [now left|].
  right. split; [reflexivity|]. cbn.
  destruct (raises env 2); [now left | now right].
Qed.

Lemma markWorkoutDone_shape env w bu bk :
  markWorkoutDone bu bk env w
  = (w, mkResponse 400 (ErrorBody "Missing required fields"))
  \/ exists u k,
       bu = Some u /\ bk = Some k /\ u <> 0 /\ k <> 0
       /\ (tables (markWorkoutDone bu bk env w) = db w
           \/ tables (markWorkoutDone bu bk env w)
              = after_mark (NOW env 0) u k (db w)
           \/ exists p,
                workout_program (db w) k = Some p
                /\ has_progress (db w) u k = true
                /\ pending_in (after_mark (NOW env 0) u k (db w)) u p = false
                /\ tables (markWorkoutDone bu bk env w)
                   = set_user_programs (after_mark (NOW env 0) u k (db w))
                       (map (stamp (NOW env 3) u p) (user_programs (db w)))).
Proof.
  assert (Hfalsy : falsy_num bu || falsy_num bk = true ->
                   markWorkoutDone bu bk env w
                   = (w, mkResponse 400 (ErrorBody "Missing required fields"))).
  { intros H. unfold markWorkoutDone, route, try_catch. now rewrite H. }
  destruct bu as [u|]; [|left; now apply Hfalsy].
  destruct bk as [k|]; [|left; apply Hfalsy; cbn; now rewrite orb_true_r].
  destruct (Z.eq_dec u 0) as [->|Hu]; [left; now apply Hfalsy|].
  destruct (Z.eq_dec k 0) as [->|Hk];
    [left; apply Hfalsy; cbn; now rewrite orb_true_r|].
  right. exists u, k. repeat (split; [easy|]).
  unfold tables. rewrite markWorkoutDone_steps by assumption. cbn zeta.
  destruct (raises env 0); [now left|].
  destruct (has_progress (db w) u k) eqn:Hx; cbn [negb]; [|right; now left].
  destruct (raises env 1); [right; now left|].
  destruct (workout_program (db w) k) as [p|]; [|right; now left].
  destruct (raises env 2); [right; now left|].
  cbn [db].
  destruct (pending_in (after_mark (NOW env 0) u k (db w)) u p) eqn:Hpend;
    [right; now left|].
  destruct (raises env 3); [right; now left|].
  right; right. exists p. now repeat split.
Qed.

Lemma submitFeedback_shape env w bu bp bm :
  submitFeedback bu bp bm env w
  = (w, mkResponse 400 (ErrorBody "Missing required fields"))
  \/ exists u p m,
       bu = Some u /\ bp = Some p /\ bm = Some m
       /\ u <> 0 /\ p <> 0 /\ m <> ""
       /\ (tables (submitFeedback bu bp bm env w) = db w
           \/ exists a t,
                assignment_of (db w) u p = Some a
                /\ completed_at a = Some t
                /\ has_comment (db w) u p = false
                /\ tables (submitFeedback bu bp bm env w)
                   = push_comment (db w)
                       (mkComment (comments_seq (db w)) u p m (NOW env 2))).
Proof.
  assert (Hfalsy : falsy_num bu || falsy_num bp || falsy_str bm = true ->
                   submitFeedback bu bp bm env w
                   = (w, mkResponse 400 (ErrorBody "Missing required fields"))).
  { intros H. unfold submitFeedback, route, try_catch. now rewrite H. }
  destruct bu as [u|]; [|left; now apply Hfalsy].
  destruct bp as [p|]; [|left; apply Hfalsy; cbn; now rewrite orb_true_r].
  destruct bm as [m|]; [|left; apply Hfalsy; cbn; now rewrite orb_true_r].
  destruct (Z.eq_dec u 0) as [->|Hu]; [left; now apply Hfalsy|].
  destruct (Z.eq_dec p 0) as [->|Hp];
    [left; apply Hfalsy; cbn; now rewrite orb_true_r|].
  destruct (string_dec m "") as [->|Hm];
    [left; apply Hfalsy; cbn; now rewrite orb_true_r|].
  right. exists u, p, m. repeat (split; [easy|]).
  unfold tables. rewrite submitFeedback_steps by assumption.
  destruct (raises env 0); [now left|].
  destruct (assignment_of (db w) u p) as [a|] eqn:Ha; [|now left].
  destruct (completed_at a) as [t|] eqn:Ht; [|now left].
  destruct (raises env 1); [now left|].
  destruct (has_comment (db w) u p) eqn:Hc; [now left|].
  destruct (raises env 2); [now left|].
  right. exists a, t. now repeat split.
Qed.

Lemma mark_done_step now u k e : progress_step e (mark_done now u k e).
Proof.
  unfold progress_step, mark_done.
  destruct (is_progress u k e); cbn; tauto.
Qed.

Lemma stamp_step now u p a : assignment_step a (stamp now u p a).
Proof.
  unfold assignment_step, stamp.
  destruct (is_assignment u p a); cbn; repeat split; try tauto. discriminate.
Qed.

Lemma Forall2_map_right A B (R : A -> B -> Prop) (f : A -> B) (l : list A) :
  (forall x, R x (f x)) -> Forall2 R l (map f l).
Proof. intros H. induction l; cbn; constructor; auto. Qed.

Lemma Forall2_same A (R : A -> A -> Prop) (l : list A) :
  (forall x, R x x) -> Forall2 R l l.
Proof. intros H. induction l; constructor; auto. Qed.

Lemma progress_step_refl e : progress_step e e.
Proof. unfold progress_step; tauto. Qed.

Lemma assignment_step_refl a : assignment_step a a.
Proof. unfold assignment_step; tauto. Qed.

Lemma mark_done_other now u k e :
  is_progress u k e = false -> mark_done now u k e = e.
Proof. unfold mark_done. now intros ->. Qed.

Lemma map_mark_done_absent now u k (l : list UserProgress) :
  existsb (is_progress u k) l = false -> map (mark_done now u k) l = l.
Proof.
  induction l as [|e l IH]; cbn; [reflexivity|].
  intros H. apply orb_false_elim in H as [He Hl].
  now rewrite mark_done_other, IH.
Qed.

(** * Validation *)

(** X1. A request whose ids are missing or zero (or, for feedback, whose
    message is missing or empty) is answered 400 before any statement is
    issued: nothing is written and nothing is logged, whether or not the
    store is reachable. *)
Theorem client_requests_validated
        (env : Env) (w : World) (a b : option Z) (m : option string) :
  falsy_num a = true \/ falsy_num b = true ->
  assignProgram a b env w
  = (w, mkResponse 400 (ErrorBody "Missing or invalid user/program"))
  /\ markWorkoutDone a b env w
     = (w, mkResponse 400 (ErrorBody "Missing required fields"))
  /\ submitFeedback a b m env w
     = (w, mkResponse 400 (ErrorBody "Missing required fields"))
  /\ (forall u p, u <> 0 -> p <> 0 -> falsy_str m = true ->
                  submitFeedback (Some u) (Some p) m env w
                  = (w, mkResponse 400 (ErrorBody "Missing required fields"))).
Proof.
  intros H.
  assert (Hf : falsy_num a || falsy_num b = true)
    by (destruct H as [-> | ->]; now rewrite ?orb_true_r).
  repeat split.
  - unfold assignProgram, route, try_catch, Number. now rewrite Hf.
  - unfold markWorkoutDone, route, try_catch. now rewrite Hf.
  - unfold submitFeedback, route, try_catch. now rewrite Hf.
  - intros u p Hu Hp Hm. unfold submitFeedback, route, try_catch.
    rewrite Hm. cbn. now rewrite !orb_true_r.
Qed.

Lemma client_requests_validated_witness :
  assignProgram (Some 1) (Some 0) (failing_at 0 5) (mkWorld gym [])
  = (mkWorld gym [],
     mkResponse 400 (ErrorBody "Missing or invalid user/program"))
  /\ submitFeedback (Some 1) (Some 1) (Some "") (quiet 5)
                    (mkWorld gym_completed [])
     = (mkWorld gym_completed [],
        mkResponse 400 (ErrorBody "Missing required fields")).
Proof.
  destruct (@client_requests_validated (failing_at 0 5) (mkWorld gym [])
              (Some 1) (Some 0) None (or_intror eq_refl)) as (H1 & _).
  destruct (@client_requests_validated (quiet 5) (mkWorld gym_completed [])
              None None (Some "") (or_introl eq_refl)) as (_ & _ & _ & H2).
  split; [exact H1|].
  exact (H2 1 1 ltac:(lia) ltac:(lia) eq_refl).
Defined.

(** * Frames *)

(** X2. assignProgram only ever appends: on every input and whatever the
    store does, users, programs, workouts, comments and audit_logs are
    left as they were, and the old rows of user_programs and user_progress
    stay, in place, in front of the new ones. *)
Theorem assignProgram_appends_only
        (env : Env) (w : World) (bu bp : option Z) :
  let d' := tables (assignProgram bu bp env w) in
  catalog_eq (db w) d'
  /\ comments d' = comments (db w)
  /\ (exists new, user_programs d' = user_programs (db w) ++ new
                  /\ (List.length new <= 1)%nat)
  /\ (exists new, user_progress d' = user_progress (db w) ++ new
                  /\ Forall (fun e => Some (pr_user_id e) = bu
                                      /\ pr_status e = pending) new).
Proof.
  cbn zeta. unfold catalog_eq.
  destruct (assignProgram_shape env w bu bp)
    as [E | (u & p & -> & -> & Hu & Hp & [E | (Hx & [E | E])])].
  - unfold tables. rewrite E. cbn.
    repeat split; exists []; rewrite app_nil_r; split; auto.
  - rewrite E.
    repeat split; exists []; rewrite app_nil_r; split; auto.
  - rewrite E. cbn.
    repeat split; [eexists; split; [reflexivity | cbn; lia]|].
    exists []; rewrite app_nil_r; split; auto.
  - rewrite E. cbn.
    repeat split; [eexists; split; [reflexivity | cbn; lia]|].
    eexists; split; [reflexivity|].
    apply Forall_forall. intros e He. unfold new_progress in He.
    apply in_map_iff in He as (x & <- & _). now cbn.
Qed.

(** * Progress *)

(** X3. markWorkoutDone for a (user, workout) pair without a ProgressEntry
    answers 404 "Progress entry not found" and changes nothing: the store
    is left exactly as it was. *)
Theorem markWorkoutDone_missing_entry (env : Env) (w : World) (u k : Z) :
  u <> 0 -> k <> 0 ->
  raises env 0 = false ->
  has_progress (db w) u k = false ->
  markWorkoutDone (Some u) (Some k) env w
  = (w, mkResponse 404 (ErrorBody "Progress entry not found")).
Proof.
  intros Hu Hk H0 Hx.
  rewrite markWorkoutDone_steps by assumption. cbn zeta.
  rewrite H0, Hx. cbn [negb].
  unfold after_mark. unfold has_progress in Hx.
  rewrite (map_mark_done_absent _ _ _ _ Hx).
  destruct w as [[] c]. reflexivity.
Qed.

Lemma markWorkoutDone_missing_entry_witness :
  markWorkoutDone (Some 2) (Some 1) (quiet 50) (mkWorld gym_assigned [])
  = (mkWorld gym_assigned [],
     mkResponse 404 (ErrorBody "Progress entry not found")).
Proof.
  exact (@markWorkoutDone_missing_entry (quiet 50) (mkWorld gym_assigned [])
           2 1 ltac:(lia) ltac:(lia) eq_refl eq_refl).
Defined.

(** X4. markWorkoutDone never takes anything back, on any input and
    whatever the store does: every ProgressEntry keeps its keys and a done
    entry stays done, entries of other (user, workout) pairs are not
    touched at all, every Assignment keeps its keys and a completed
    Assignment stays completed; no row is added or removed, and the other
    tables are left as they were. *)
Theorem markWorkoutDone_monotone
        (env : Env) (w : World) (bu bk : option Z) :
  let d' := tables (markWorkoutDone bu bk env w) in
  Forall2 progress_step (user_progress (db w)) (user_progress d')
  /\ Forall2 (fun e e' => (Some (pr_user_id e) <> bu
                           \/ Some (pr_workout_id e) <> bk) -> e' = e)
             (user_progress (db w)) (user_progress d')
  /\ Forall2 assignment_step (user_programs (db w)) (user_programs d')
  /\ catalog_eq (db w) d'
  /\ comments d' = comments (db w).
Proof.
  cbn zeta. unfold catalog_eq.
  assert (Hsame : forall d, Forall2 progress_step (user_progress d)
                                    (user_progress d)
                            /\ Forall2 (fun e e' =>
                                          (Some (pr_user_id e) <> bu
                                           \/ Some (pr_workout_id e) <> bk)
                                          -> e' = e)
                                       (user_progress d) (user_progress d)
                            /\ Forall2 assignment_step (user_programs d)
                                       (user_programs d)).
  { intros d. repeat split; apply Forall2_same; auto using progress_step_refl,
                                                  assignment_step_refl. }
  destruct (markWorkoutDone_shape env w bu bk)
    as [E | (u & k & -> & -> & Hu & Hk & [E | [E | (p & _ & _ & _ & E)]])].
  - unfold tables. rewrite E. cbn. destruct (Hsame (db w)) as (? & ? & ?).
    now repeat split.
  - rewrite E. destruct (Hsame (db w)) as (? & ? & ?). now repeat split.
  - rewrite E. cbn.
    repeat split; try apply Forall2_same; auto using assignment_step_refl.
    + apply Forall2_map_right. apply mark_done_step.
    + apply Forall2_map_right. intros e H.
      apply mark_done_other. unfold is_progress.
      destruct (pr_user_id e =? u) eqn:E1; [|reflexivity].
      destruct (pr_workout_id e =? k) eqn:E2; [|reflexivity].
      apply Z.eqb_eq in E1, E2. subst. tauto.
  - rewrite E. cbn.
    repeat split.
    + apply Forall2_map_right. apply mark_done_step.
    + apply Forall2_map_right. intros e H.
      apply mark_done_other. unfold is_progress.
      destruct (pr_user_id e =? u) eqn:E1; [|reflexivity].
      destruct (pr_workout_id e =? k) eqn:E2; [|reflexivity].
      apply Z.eqb_eq in E1, E2. subst. tauto.
    + apply Forall2_map_right. apply stamp_step.
Qed.

(** X5. When the entry exists but no workout row has that id,
    markWorkoutDone answers 404 "Workout not found" after the status
    update has run: the entry is done all the same, and no Assignment is
    touched. *)
Theorem markWorkoutDone_missing_workout (env : Env) (w : World) (u k : Z) :
  u <> 0 -> k <> 0 ->
  raises env 0 = false -> raises env 1 = false ->
  has_progress (db w) u k = true ->
  workout_program (db w) k = None ->
  let r := markWorkoutDone (Some u) (Some k) env w in
  snd r = mkResponse 404 (ErrorBody "Workout not found")
  /\ tables r = after_mark (NOW env 0) u k (db w)
  /\ user_programs (tables r) = user_programs (db w)
  /\ (forall e, In e (user_progress (tables r)) ->
                pr_user_id e = u -> pr_workout_id e = k ->
                pr_status e = done).
Proof.
  intros Hu Hk H0 H1 Hx Hnone r. subst r. unfold tables.
  rewrite markWorkoutDone_steps by assumption. cbn zeta.
  rewrite H0, Hx, H1, Hnone. cbn.
  repeat split. intros e He Eu Ek.
  apply in_map_iff in He as (e0 & <- & _).
  destruct (mark_done_step (NOW env 0) u k e0) as (E1 & E2 & _).
  rewrite E1 in Eu. rewrite E2 in Ek.
  unfold mark_done, is_progress. now rewrite Eu, Ek, !Z.eqb_refl.
Qed.

Lemma markWorkoutDone_missing_workout_witness :
  snd (markWorkoutDone (Some 1) (Some 9) (quiet 50) (mkWorld gym_orphan []))
  = mkResponse 404 (ErrorBody "Workout not found")
  /\ user_progress
       (tables (markWorkoutDone (Some 1) (Some 9) (quiet 50)
                                (mkWorld gym_orphan [])))
     = [mkUserProgress 1 1 pending 10; mkUserProgress 1 2 pending 10;
        mkUserProgress 1 9 done 50].
Proof.
  destruct (@markWorkoutDone_missing_workout (quiet 50) (mkWorld gym_orphan [])
              1 9 ltac:(lia) ltac:(lia) eq_refl eq_refl eq_refl eq_refl)
    as (H1 & H2 & _).
  split; [exact H1|]. now rewrite H2.
Defined.

(** * A program from assignment to completion *)




Lemma has_progress_keys (f : UserProgress -> UserProgress) u k l :
  (forall e, pr_user_id (f e) = pr_user_id e
             /\ pr_workout_id (f e) = pr_workout_id e) ->
  existsb (is_progress u k) (map f l) = existsb (is_progress u k) l.
Proof.
  intros H. induction l as [|e l IH]; cbn; [reflexivity|].
  rewrite IH. unfold is_progress at 1 3.
  destruct (H e) as [-> ->]. reflexivity.
Qed.

(** One answered markWorkoutDone, as far as progress and workouts go. *)
Lemma markWorkoutDone_progress env w u k p :
  u <> 0 -> k <> 0 -> no_fault env ->
  has_progress (db w) u k = true ->
  workout_program (db w) k = Some p ->
  let d' := tables (markWorkoutDone (Some u) (Some k) env w) in
  workouts d' = workouts (db w)
  /\ user_progress d' = map (mark_done (NOW env 0) u k) (user_progress (db w)).
Proof.
  intros Hu Hk Hq Hx Hp. cbn zeta. unfold tables.
  rewrite (markWorkoutDone_completes w Hu Hk Hq Hx Hp). cbn zeta. cbn [fst db].
  now destruct (pending_in _ u p).
Qed.






(** As long as some entry of [u] for program [p] is pending and is not
    among the workouts marked, no request completes the Assignment. *)
Lemma mark_all_incomplete env u p xs :
  u <> 0 -> no_fault env ->
  forall w e,
    (forall x, In x xs -> x <> 0 /\ has_progress (db w) u x = true
                          /\ workout_program (db w) x = Some p) ->
    In e (user_progress (db w)) -> pr_user_id e = u ->
    ~ In (pr_workout_id e) xs ->
    in_program (db w) p e = true -> pr_status e = pending ->
    user_programs (db (mark_all env u xs w)) = user_programs (db w).
Proof.
  intros Hu Hq. induction xs as [|x xs IH]; intros w e H He Eu Hnot Hin Hs;
    cbn; [reflexivity|].
  destruct (H x (or_introl eq_refl)) as (Hx0 & Hxp & Hxw).
  destruct (markWorkoutDone_progress w Hu Hx0 Hq Hxp Hxw) as [Ew Ep].
  unfold tables in Ew, Ep.
  assert (Hkeep : mark_done (NOW env 0) u x e = e).
  { apply mark_done_other. unfold is_progress.
    destruct (pr_workout_id e =? x) eqn:E; [|now rewrite andb_false_r].
    apply Z.eqb_eq in E. elim Hnot. now left. }
  assert (Hpend : pending_in (after_mark (NOW env 0) u x (db w)) u p = true).
  { unfold pending_in, after_mark; cbn.
    apply existsb_exists. exists e. split.
    - rewrite <- Hkeep. now apply in_map.
    - unfold in_program in *; cbn. rewrite Hin, Hs, Eu, Z.eqb_refl.
      reflexivity. }
  assert (Eups : user_programs (db (fst (markWorkoutDone (Some u) (Some x)
                                                         env w)))
                 = user_programs (db w)).
  { rewrite (markWorkoutDone_completes w Hu Hx0 Hq Hxp Hxw). cbn zeta.
    cbn [fst db]. now rewrite Hpend. }
  rewrite <- Eups.
  apply (IH _ e).
  - intros y Hy. destruct (H y (or_intror Hy)) as (Hy0 & Hyp & Hyw).
    split; [exact Hy0|]. split.
    + unfold has_progress in *. rewrite Ep.
      rewrite has_progress_keys; [exact Hyp|].
      intros e'. destruct (mark_done_step (NOW env 0) u x e') as (?&?&_).
      now split.
    + unfold workout_program in *. now rewrite Ew.
  - rewrite Ep, <- Hkeep. now apply in_map.
  - exact Eu.
  - intros Hy. apply Hnot. now right.
  - unfold in_program in *. now rewrite Ew.
  - exact Hs.
Qed.

Lemma workout_program_unique (l : list Workout) (r : Workout) :
  NoDup (map w_id l) -> In r l ->
  hd_error (map w_program_id (filter (fun x => w_id x =? w_id r) l))
  = Some (w_program_id r).
Proof.
  induction l as [|b l IH]; cbn; [tauto|].
  intros Hnd [->|Hin].
  - now rewrite Z.eqb_refl.
  - inversion Hnd as [|? ? Hb Hl]; subst.
    destruct (w_id b =? w_id r) eqn:E; [|now apply IH].
    apply Z.eqb_eq in E. elim Hb. rewrite E. now apply in_map.
Qed.

(** The store right after a successful assignProgram. *)
Lemma assignProgram_success env w u p :
  u <> 0 -> p <> 0 -> no_fault env ->
  has_assignment (db w) u p = false ->
  fst (assignProgram (Some u) (Some p) env w)
  = mkWorld (set_user_progress
               (push_user_program (db w)
                  (mkUserProgram (user_programs_seq (db w)) u p None))
               (user_progress (db w) ++ new_progress (NOW env 2) u p (db w)))
            (console w).
Proof.
  intros Hu Hp Hq Hx. rewrite assignProgram_steps by assumption.
  now rewrite !Hq, Hx.
Qed.

Section Lifecycle.

Variables (env : Env) (w : World) (u p : Z).
Hypothesis Hu : u <> 0.
Hypothesis Hp : p <> 0.
Hypothesis Hq : no_fault env.
Hypothesis Hfresh : has_assignment (db w) u p = false.
Hypothesis Hkeys : NoDup (map w_id (workouts (db w))).
Hypothesis Hids : forall x, In x (program_workouts (db w) p) -> w_id x <> 0.

Let w1 := fst (assignProgram (Some u) (Some p) env w).
Let a0 := mkUserProgram (user_programs_seq (db w)) u p None.

Lemma assigned_first : assignment_of (db w1) u p = Some a0.
Proof.
  unfold w1. rewrite assignProgram_success by assumption.
  unfold assignment_of; cbn. rewrite filter_app; cbn.
  unfold has_assignment in Hfresh.
  rewrite (existsb_false_filter _ _ Hfresh).
  now rewrite is_assignment_refl.
Qed.

Lemma assigned_markable y :
  In y (map w_id (program_workouts (db w) p)) ->
  y <> 0 /\ has_progress (db w1) u y = true
  /\ workout_program (db w1) y = Some p.
Proof.
  intros Hy. apply in_map_iff in Hy as (r & <- & Hr).
  split; [now apply Hids|].
  unfold w1. rewrite assignProgram_success by assumption.
  unfold has_progress, workout_program; cbn.
  unfold program_workouts in Hr. apply filter_In in Hr as [Hr Hrp].
  apply Z.eqb_eq in Hrp. split.
  - rewrite existsb_app. apply orb_true_iff. right.
    apply existsb_exists.
    exists (mkUserProgress u (w_id r) default_status
                           (default_timestamp (NOW env 2))).
    split.
    + unfold new_progress.
      apply (in_map (fun x => mkUserProgress u (w_id x) default_status
                                (default_timestamp (NOW env 2)))).
      apply filter_In. split; [exact Hr|]. now apply Z.eqb_eq.
    + unfold is_progress; cbn. now rewrite !Z.eqb_refl.
  - rewrite (workout_program_unique _ r Hkeys Hr). now rewrite Hrp.
Qed.



(** X7. Assign a program and mark only some of its workouts: as long as
    one workout of the program has not been marked, the Assignment stays
    incomplete, however often the others are marked. *)
Theorem assign_then_partial_marks_incomplete (ws : list Z) (y0 : Z) :
  (forall y, In y ws -> In y (map w_id (program_workouts (db w) p))) ->
  In y0 (map w_id (program_workouts (db w) p)) ->
  ~ In y0 ws ->
  assignment_of (db (mark_all env u ws w1)) u p = Some a0.
Proof.
  intros Hws Hy0 Hnot.
  unfold assignment_of.
  rewrite (@mark_all_incomplete env u p ws Hu Hq w1
             (mkUserProgress u y0 default_status
                             (default_timestamp (NOW env 2)))).
  - exact assigned_first.
  - intros y Hy. apply assigned_markable. now apply Hws.
  - unfold w1. rewrite assignProgram_success by assumption. cbn.
    apply in_app_iff. right. unfold new_progress.
    apply in_map_iff in Hy0 as (r & <- & Hr).
    now apply (in_map (fun x => mkUserProgress u (w_id x) default_status
                                  (default_timestamp (NOW env 2)))).
  - reflexivity.
  - exact Hnot.
  - apply in_map_iff in Hy0 as (r & <- & Hr).
    unfold w1. rewrite assignProgram_success by assumption.
    unfold in_program; cbn. apply existsb_exists. exists r.
    unfold program_workouts in Hr. apply filter_In in Hr as [Hr Hrp].
    split; [exact Hr|]. now rewrite Z.eqb_refl.
  - reflexivity.
Qed.

End Lifecycle.


Lemma assign_then_partial_marks_incomplete_witness :
  assignment_of
    (db (mark_all (quiet 10) 1 [1; 1]
           (fst (assignProgram (Some 1) (Some 1) (quiet 10) (mkWorld gym [])))))
    1 1
  = Some (mkUserProgram 1 1 1 None).
Proof.
  refine (@assign_then_partial_marks_incomplete (quiet 10) (mkWorld gym [])
            1 1 ltac:(lia) ltac:(lia) (fun _ => eq_refl) eq_refl
            _ _ [1; 1] 2 _ _ _).
  - cbn. repeat constructor; cbn; intuition lia.
  - cbn. intros x [<-|[<-|[]]]; cbn; lia.
  - cbn. intuition lia.
  - cbn. intuition lia.
  - cbn. intuition lia.
Defined.

(** * Feedback invariants *)

Lemma assignment_of_in d u p a :
  assignment_of d u p = Some a ->
  In a (user_programs d) /\ is_assignment u p a = true.
Proof.
  unfold assignment_of.
  destruct (filter (is_assignment u p) (user_programs d)) as [|b l] eqn:Hf;
    [discriminate|].
  cbn. intros [= ->].
  apply filter_In. rewrite Hf. now left.
Qed.

(** X8. Feedback exists only for completed Assignments, and the client
    handlers keep it so on every input and whatever the store does:
    assignProgram, markWorkoutDone and submitFeedback each take a store
    where every Feedback row has an Assignment of its pair with a
    completion timestamp to a store of the same kind. *)
Theorem feedback_only_completed_kept
        (env : Env) (w : World) (a b : option Z) (m : option string) :
  feedback_only_completed (db w) ->
  feedback_only_completed (tables (assignProgram a b env w))
  /\ feedback_only_completed (tables (markWorkoutDone a b env w))
  /\ feedback_only_completed (tables (submitFeedback a b m env w)).
Proof.
  intros Hinv. split; [|split].
  - destruct (assignProgram_shape env w a b)
      as [E | (u & p & _ & _ & _ & _ & [E | (_ & [E | E])])];
      [unfold tables; now rewrite E | now rewrite E | |];
      rewrite E; intros c Hc; cbn in Hc;
      destruct (Hinv c Hc) as (x & Hx & Hp & Hd);
      exists x; (split; [cbn; apply in_app_iff; now left | now split]).
  - destruct (markWorkoutDone_shape env w a b)
      as [E | (u & k & _ & _ & _ & _ & [E | [E | (p & _ & _ & _ & E)]])];
      [unfold tables; now rewrite E | now rewrite E | |];
      rewrite E; intros c Hc; cbn in Hc;
      destruct (Hinv c Hc) as (x & Hx & Hp & Hd).
    + exists x. now repeat split.
    + exists (stamp (NOW env 3) u p x). cbn. split; [now apply in_map|].
      split; [now rewrite stamp_keeps_pair|].
      now apply stamp_step.
  - destruct (submitFeedback_shape env w a b m)
      as [E | (u & p & s & _ & _ & _ & _ & _ & _
               & [E | (x & t & Hx & Ht & _ & E)])];
      [unfold tables; now rewrite E | now rewrite E |].
    rewrite E. intros c Hc. cbn in Hc.
    apply in_app_iff in Hc as [Hc|[<-|[]]].
    + destruct (Hinv c Hc) as (y & Hy & Hp & Hd). exists y. now repeat split.
    + apply assignment_of_in in Hx as [Hin Hp].
      exists x. cbn. repeat split; [exact Hin | exact Hp | now rewrite Ht].
Qed.

Lemma feedback_only_completed_kept_witness :
  feedback_only_completed
    (tables (submitFeedback (Some 1) (Some 1) (Some "great") (quiet 110)
                            (mkWorld gym_completed []))).
Proof.
  refine (proj2 (proj2 (@feedback_only_completed_kept (quiet 110)
                          (mkWorld gym_completed []) (Some 1) (Some 1)
                          (Some "great") _))).
  intros c [].
Defined.

Lemma no_comment_not_in u p (l : list Comment) :
  existsb (is_comment u p) l = false ->
  ~ In (u, p) (map (fun c => (c_user_id c, c_program_id c)) l).
Proof.
  induction l as [|c l IH]; cbn; [tauto|].
  intros H. apply orb_false_elim in H as [Hc Hl].
  intros [E|HIn]; [|now apply IH].
  injection E as E1 E2. unfold is_comment in Hc.
  rewrite E1, E2, !Z.eqb_refl in Hc. discriminate.
Qed.

(** X9. At most one Feedback per (user, program) pair: submitFeedback
    keeps the pairs of comments free of duplicates on every input and
    whatever the store does, and adds at most one row per request. *)
Theorem submitFeedback_unique_feedback
        (env : Env) (w : World) (bu bp : option Z) (bm : option string) :
  unique_feedback (db w) ->
  let d' := tables (submitFeedback bu bp bm env w) in
  unique_feedback d'
  /\ (comments d' = comments (db w)
      \/ exists c, comments d' = comments (db w) ++ [c]
                   /\ Some (c_user_id c) = bu /\ Some (c_program_id c) = bp
                   /\ Some (c_message c) = bm).
Proof.
  intros Hinv. cbn zeta.
  destruct (submitFeedback_shape env w bu bp bm)
    as [E | (u & p & s & -> & -> & -> & _ & _ & _
             & [E | (x & t & _ & _ & Hc & E)])].
  - unfold tables. rewrite E. split; [exact Hinv | now left].
  - rewrite E. split; [exact Hinv | now left].
  - rewrite E. split.
    + unfold unique_feedback; cbn. rewrite map_app; cbn.
      apply NoDup_snoc; [exact Hinv | now apply no_comment_not_in].
    + right. eexists. split; [reflexivity|]. now cbn.
Qed.

Lemma submitFeedback_unique_feedback_witness :
  unique_feedback
    (tables (submitFeedback (Some 1) (Some 1) (Some "great") (quiet 110)
                            (mkWorld gym_completed []))).
Proof.
  refine (proj1 (@submitFeedback_unique_feedback (quiet 110)
                   (mkWorld gym_completed []) (Some 1) (Some 1)
                   (Some "great") _)).
  constructor.
Defined.

(** * Admin mutations *)

Lemma authAdmin_allows c next env w :
  caller_role c = "super_admin" ->
  authAdmin (Some c) next env w = next env w.
Proof. intros H. unfold authAdmin; cbn. now rewrite H. Qed.

Lemma map_absent_id (f : User -> User) id (l : list User) :
  (forall x, (u_id x =? id) = false -> f x = x) ->
  existsb (fun x => u_id x =? id) l = false -> map f l = l.
Proof.
  intros Hf. induction l as [|x l IH]; cbn; [reflexivity|].
  intros H. apply orb_false_elim in H as [Hx Hl].
  now rewrite Hf, IH.
Qed.

Lemma set_users_same d : set_users d (users d) = d.
Proof. now destruct d. Qed.

(** X10. A role change by a super admin to one of client, coach,
    super_admin sets the role of the rows with that id and nothing else,
    and answers 200 "Role updated"; the handler does not look at how many
    rows it updated, so for an id no user has it answers 200 as well and
    leaves the store as it was. *)
Theorem changeUserRole_applies
        (env : Env) (w : World) (c : Caller) (id : Z) (role : string) :
  caller_role c = "super_admin" ->
  In role allowed ->
  raises env 0 = false ->
  let r := changeUserRole (Some c) id (Some role) env w in
  r = (mkWorld (set_users (db w) (map (with_role id role) (users (db w))))
               (console w),
       mkResponse 200 (MessageBody "Role updated"))
  /\ (user_exists (db w) id = false -> r = (w, mkResponse 200
                                                 (MessageBody "Role updated"))).
Proof.
  intros Hc Hrole H0 r. subst r.
  assert (E : changeUserRole (Some c) id (Some role) env w
              = (mkWorld (set_users (db w)
                            (map (with_role id role) (users (db w))))
                         (console w),
                 mkResponse 200 (MessageBody "Role updated"))).
  { unfold changeUserRole. rewrite authAdmin_allows by exact Hc.
    unfold route, try_catch, bind, pool_query.
    cbn in Hrole. destruct Hrole as [<-|[<-|[<-|[]]]]; cbn; now rewrite H0. }
  split; [exact E|].
  intros Hx. rewrite E. unfold user_exists in Hx.
  rewrite (map_absent_id (with_role id role) id); [|
    intros x Hne; unfold with_role; now rewrite Hne | exact Hx].
  rewrite set_users_same. now destruct w.
Qed.

Lemma changeUserRole_applies_witness :
  changeUserRole (Some admin3) 9 (Some "coach") (quiet 10) (mkWorld gym [])
  = (mkWorld gym [], mkResponse 200 (MessageBody "Role updated")).
Proof.
  exact (proj2 (@changeUserRole_applies (quiet 10) (mkWorld gym []) admin3 9
                  "coach" eq_refl (or_intror (or_introl eq_refl)) eq_refl)
               eq_refl).
Defined.

(** X11. A role change whose role is missing or empty is answered 400
    "Role is required", and one whose role is none of client, coach,
    super_admin (the comparison is exact, so "Coach" is none of them) is
    answered 400 "Invalid role"; in both cases no statement is issued and
    the store is left as it was. *)
Theorem changeUserRole_rejects_invalid_role
        (env : Env) (w : World) (c : Caller) (id : Z) (role : string) :
  caller_role c = "super_admin" ->
  ~ In role allowed ->
  changeUserRole (Some c) id None env w
  = (w, mkResponse 400 (ErrorBody "Role is required"))
  /\ changeUserRole (Some c) id (Some "") env w
     = (w, mkResponse 400 (ErrorBody "Role is required"))
  /\ (role <> "" ->
      changeUserRole (Some c) id (Some role) env w
      = (w, mkResponse 400 (ErrorBody "Invalid role"))).
Proof.
  intros Hc Hrole. unfold changeUserRole.
  rewrite !authAdmin_allows by exact Hc.
  repeat split. intros Hne.
  assert (Hinc : includes allowed role = false).
  { apply not_true_is_false. intros H. apply Hrole.
    unfold includes in H. apply existsb_exists in H as (x & Hx & E).
    apply String.eqb_eq in E. now subst. }
  apply String.eqb_neq in Hne.
  unfold route, try_catch, falsy_str, str_param.
  now rewrite Hne, Hinc.
Qed.

Lemma changeUserRole_rejects_invalid_role_witness :
  changeUserRole (Some admin3) 1 (Some "Coach") (quiet 10) (mkWorld gym [])
  = (mkWorld gym [], mkResponse 400 (ErrorBody "Invalid role")).
Proof.
  assert (H : ~ In "Coach" allowed).
  { cbn. intros [E|[E|[E|[]]]]; discriminate E. }
  refine (proj2 (proj2 (@changeUserRole_rejects_invalid_role (quiet 10)
                          (mkWorld gym []) admin3 1 "Coach" eq_refl H)) _).
  discriminate.
Defined.



Lemma setUserActive_steps env w c uid b :
  caller_role c = "super_admin" -> uid <> 0 ->
  setUserActive (Some c) (Some uid) (Some b) env w =
  if raises env 0 then (logged "Error updating user:" w, Internal)
  else if user_exists (db w) uid
       then (mkWorld (set_users (db w)
                        (map (with_active uid b) (users (db w))))
                     (console w),
             mkResponse 200 (MessageBody "User status updated"))
       else (w, mkResponse 404 (ErrorBody "User not found")).
Proof.
  intros Hc Hu. unfold setUserActive. rewrite authAdmin_allows by exact Hc.
  unfold route, try_catch, bind, pool_query; cbn.
  apply Z.eqb_neq in Hu. rewrite Hu; cbn.
  destruct (raises env 0); [reflexivity|]; cbn.
  rewrite length_zero_existsb. unfold user_exists.
  destruct (existsb (fun x => u_id x =? uid) (users (db w))) eqn:Hx; cbn;
    [reflexivity|].
  rewrite (map_absent_id _ uid); [| | exact Hx].
  - rewrite set_users_same. now destruct w.
  - intros x Hne. now rewrite Hne.
Qed.

(** X13. An activation toggle by a super admin for an existing user sets
    the active flag of that user, to false as well as to true, changes no
    other column or row, and answers 200; for an id no user has it answers
    404 "User not found", and for a request without the flag 400, both
    with the store left as it was. *)
Theorem setUserActive_applies
        (env : Env) (w : World) (c : Caller) (uid : Z) (b : bool) :
  caller_role c = "super_admin" ->
  uid <> 0 ->
  raises env 0 = false ->
  (user_exists (db w) uid = true ->
   setUserActive (Some c) (Some uid) (Some b) env w
   = (mkWorld (set_users (db w) (map (with_active uid b) (users (db w))))
              (console w),
      mkResponse 200 (MessageBody "User status updated")))
  /\ (user_exists (db w) uid = false ->
      setUserActive (Some c) (Some uid) (Some b) env w
      = (w, mkResponse 404 (ErrorBody "User not found")))
  /\ setUserActive (Some c) (Some uid) None env w
     = (w, mkResponse 400 (ErrorBody "Missing user_id or active flag")).
Proof.
  intros Hc Hu H0.
  rewrite setUserActive_steps by assumption. rewrite H0.
  split; [now intros ->|]. split; [now intros ->|].
  unfold setUserActive. rewrite authAdmin_allows by exact Hc.
  unfold route, try_catch; cbn. now rewrite orb_true_r.
Qed.

Lemma setUserActive_applies_witness :
  users (tables (setUserActive (Some admin3) (Some 1) (Some false) (quiet 10)
                               (mkWorld gym [])))
  = [mkUser 1 "h1" "client" false; mkUser 2 "h2" "coach" true;
     mkUser 3 "h3" "super_admin" true]
  /\ setUserActive (Some admin3) (Some 9) (Some false) (quiet 10)
                   (mkWorld gym [])
     = (mkWorld gym [], mkResponse 404 (ErrorBody "User not found")).
Proof.
  destruct (@setUserActive_applies (quiet 10) (mkWorld gym []) admin3 1 false
              eq_refl ltac:(lia) eq_refl) as (H1 & _).
  destruct (@setUserActive_applies (quiet 10) (mkWorld gym []) admin3 9 false
              eq_refl ltac:(lia) eq_refl) as (_ & H2 & _).
  split.
  - unfold tables. now rewrite (H1 eq_refl).
  - exact (H2 eq_refl).
Defined.

Lemma with_active_twice uid b b' (l : list User) :
  map (with_active uid b) (map (with_active uid b') l)
  = map (with_active uid b) l.
Proof.
  rewrite map_map. apply map_ext. intros x. unfold with_active.
  destruct (u_id x =? uid) eqn:E; cbn; now rewrite E.
Qed.

Lemma with_active_same uid b (l : list User) :
  (forall x, In x l -> u_id x = uid -> u_active x = b) ->
  map (with_active uid b) l = l.
Proof.
  intros H. rewrite <- (map_id l) at 2. apply map_ext_in.
  intros x Hx. unfold with_active.
  destruct (u_id x =? uid) eqn:E; [|reflexivity].
  apply Z.eqb_eq in E. rewrite <- (H x Hx E). now destruct x.
Qed.

Lemma user_exists_with_active uid b id (l : list User) :
  existsb (fun x => u_id x =? id) (map (with_active uid b) l)
  = existsb (fun x => u_id x =? id) l.
Proof.
  induction l as [|x l IH]; cbn; [reflexivity|].
  rewrite IH. unfold with_active at 1.
  now destruct (u_id x =? uid).
Qed.

(** X14. Toggling is idempotent and reversible: setting the flag of an
    existing user to b twice leaves the tables as setting it once does,
    and deactivating a user and activating them again (or the other way
    round) brings the tables back to what they were. *)
Theorem setUserActive_round_trip
        (env1 env2 : Env) (w : World) (c : Caller) (uid : Z) (b : bool) :
  caller_role c = "super_admin" ->
  uid <> 0 ->
  raises env1 0 = false -> raises env2 0 = false ->
  user_exists (db w) uid = true ->
  let set v e s := setUserActive (Some c) (Some uid) (Some v) e s in
  tables (set b env2 (fst (set b env1 w))) = tables (set b env1 w)
  /\ ((forall x, In x (users (db w)) -> u_id x = uid -> u_active x = b) ->
      tables (set b env2 (fst (set (negb b) env1 w))) = db w).
Proof.
  intros Hc Hu H1 H2 Hx. cbn zeta. unfold tables.
  rewrite !(@setUserActive_steps env1) by assumption. rewrite H1, Hx.
  cbn [fst].
  rewrite !setUserActive_steps by assumption. rewrite H2. cbn [db console].
  unfold user_exists in *; cbn [users set_users].
  rewrite !user_exists_with_active, Hx. cbn [fst db].
  split.
  - rewrite with_active_twice. now destruct (db w).
  - intros Hall. rewrite with_active_twice.
    rewrite (@with_active_same uid b _ Hall).
    now destruct (db w).
Qed.

Lemma setUserActive_round_trip_witness :
  tables (setUserActive (Some admin3) (Some 1) (Some true) (quiet 20)
            (fst (setUserActive (Some admin3) (Some 1) (Some false) (quiet 10)
                                (mkWorld gym []))))
  = gym.
Proof.
  refine (proj2 (@setUserActive_round_trip (quiet 10) (quiet 20)
                   (mkWorld gym []) admin3 1 true eq_refl ltac:(lia)
                   eq_refl eq_refl eq_refl) _).
  cbn. intros x [<-|[<-|[<-|[]]]]; reflexivity.
Defined.

(** X15. What the admin mutations never do, on any input, for any caller
    and whatever the store does: they create and delete no user and
    change no user id, each leaves the user columns of the other two
    alone (a role change keeps password and active flag, a password reset
    keeps role and active flag, a toggle keeps password and role), and
    none writes a table other than users. *)
Theorem admin_mutations_frame
        (bcrypt_hash : string -> string) (env : Env) (w : World)
        (req_user : option Caller) (id : Z) (role new_password : option string)
        (user_id : option Z) (active : option bool) :
  let d1 := tables (changeUserRole req_user id role env w) in
  let d2 := tables (resetPassword bcrypt_hash req_user id new_password env w) in
  let d3 := tables (setUserActive req_user user_id active env w) in
  beside_users_eq (db w) d1 /\ beside_users_eq (db w) d2
  /\ beside_users_eq (db w) d3
  /\ Forall2 (fun x x' => u_id x' = u_id x /\ u_password x' = u_password x
                          /\ u_active x' = u_active x)
             (users (db w)) (users d1)
  /\ Forall2 (fun x x' => u_id x' = u_id x /\ u_role x' = u_role x
                          /\ u_active x' = u_active x)
             (users (db w)) (users d2)
  /\ Forall2 (fun x x' => u_id x' = u_id x /\ u_password x' = u_password x
                          /\ u_role x' = u_role x)
             (users (db w)) (users d3).
Proof.
  cbn zeta. unfold tables, beside_users_eq.
  repeat apply conj;
    unfold changeUserRole, resetPassword, setUserActive, authAdmin, route,
      try_catch, bind, pool_query;
    cbn; split_ifs; cbn; try reflexivity;
    try (apply Forall2_same; tauto);
    apply Forall2_map_right; intros x;
    match goal with |- context [if ?c then _ else _] => destruct c end;
    cbn; tauto.
Qed.

(** * Coach statistics *)





(** * Workouts added later *)

Lemma createWorkout_steps env w new_id p tm ds sets we :
  p <> 0 -> tm <> "" -> ds <> "" -> sets <> 0 ->
  createWorkout new_id (Some p) (Some tm) (Some ds) (Some sets) we env w =
  if raises env 0
  then (logged "Error creating workout:" w, Refused Internal)
  else (mkWorld (push_workout (db w) (mkWorkout new_id p)) (console w),
        Created (Some (mkWorkout new_id p))).
Proof.
  intros Hp Htm Hds Hs. unfold createWorkout, try_catch, bind, pool_query.
  cbn. apply Z.eqb_neq in Hp, Hs. apply String.eqb_neq in Htm, Hds.
  rewrite Hp, Hs, Htm, Hds. cbn.
  destruct w as [d c]; cbn. now destruct (raises env 0).
Qed.

(** X17. A workout added to a program that is already assigned stays out
    of reach of the assigned user: createWorkout writes no ProgressEntry
    and no Assignment (and does not ask whether the program exists), so
    marking the new workout done answers 404 "Progress entry not found",
    a completed Assignment stays completed, and assigning the program
    again to get the missing entry is refused with Conflict. *)
Theorem createWorkout_not_tracked
        (env env' : Env) (w : World) (k p u : Z)
        (tm ds : string) (sets : Z) (we : option string) :
  p <> 0 -> tm <> "" -> ds <> "" -> sets <> 0 ->
  u <> 0 -> k <> 0 ->
  no_fault env -> raises env' 0 = false ->
  has_progress (db w) u k = false ->
  let r := createWorkout k (Some p) (Some tm) (Some ds) (Some sets) we
                         env w in
  snd r = Created (Some (mkWorkout k p))
  /\ workouts (db (fst r)) = workouts (db w) ++ [mkWorkout k p]
  /\ user_progress (db (fst r)) = user_progress (db w)
  /\ user_programs (db (fst r)) = user_programs (db w)
  /\ markWorkoutDone (Some u) (Some k) env' (fst r)
     = (fst r, mkResponse 404 (ErrorBody "Progress entry not found"))
  /\ (has_assignment (db w) u p = true ->
      assignProgram (Some u) (Some p) env' (fst r) = (fst r, Conflict)).
Proof.
  intros Hp Htm Hds Hs Hu Hk Hq H0 Hx r. subst r.
  rewrite createWorkout_steps by assumption. rewrite Hq. cbn [fst snd db].
  repeat split.
  - rewrite markWorkoutDone_steps by assumption. cbn zeta.
    rewrite H0. cbn [db].
    assert (Hx' : has_progress (push_workout (db w) (mkWorkout k p)) u k
                  = false) by exact Hx.
    rewrite Hx'. cbn [negb].
    unfold after_mark; cbn. unfold has_progress in Hx.
    now rewrite (map_mark_done_absent _ _ _ _ Hx).
  - intros Ha. rewrite assignProgram_steps by assumption.
    rewrite H0. cbn [db].
    assert (Ha' : has_assignment (push_workout (db w) (mkWorkout k p)) u p
                  = true) by exact Ha.
    now rewrite Ha'.
Qed.

Lemma createWorkout_not_tracked_witness :
  markWorkoutDone (Some 1) (Some 3) (quiet 300)
                  (mkWorld gym_completed_extended [])
  = (mkWorld gym_completed_extended [],
     mkResponse 404 (ErrorBody "Progress entry not found"))
  /\ assignProgram (Some 1) (Some 1) (quiet 300)
                   (mkWorld gym_completed_extended [])
     = (mkWorld gym_completed_extended [], Conflict).
Proof.
  assert (Hs : "legs" <> "") by discriminate.
  destruct (@createWorkout_not_tracked (quiet 250) (quiet 300)
              (mkWorld gym_completed []) 3 1 1 "legs" "legs" 4 None
              ltac:(lia) Hs Hs ltac:(lia) ltac:(lia) ltac:(lia)
              (fun _ => eq_refl) eq_refl eq_refl)
    as (_ & _ & _ & _ & H1 & H2).
  split; [exact H1 | exact (H2 eq_refl)].
Defined.

(** * Progress entries and assignments *)

Lemma createWorkout_shape env w k bp tm ds sets we :
  tables_of_create (createWorkout k bp tm ds sets we env w) = db w
  \/ exists p, tables_of_create (createWorkout k bp tm ds sets we env w)
               = push_workout (db w) (mkWorkout k p).
Proof.
  unfold tables_of_create, createWorkout, try_catch, bind, pool_query.
  destruct (falsy_num bp || falsy_str tm || falsy_str ds || falsy_num sets);
    cbn; [now left|].
  destruct (raises env 0); cbn; [now left|].
  right. now eexists.
Qed.

Lemma has_assignment_stamp now u p u' p' (l : list UserProgram) :
  existsb (is_assignment u' p') (map (stamp now u p) l)
  = existsb (is_assignment u' p') l.
Proof.
  induction l as [|a l IH]; cbn; [reflexivity|].
  now rewrite IH, stamp_keeps_pair.
Qed.

(** X18. Every ProgressEntry belongs to a workout of a program assigned
    to its user, and the handlers keep it so on every input and whatever
    the store does: assignProgram, markWorkoutDone, submitFeedback and
    createWorkout each take a store of that kind to a store of that kind
    (also when assignProgram fails half way). *)
Theorem tracked_only_assigned_kept
        (env : Env) (w : World) (a b : option Z) (m tm ds : option string)
        (k : Z) (sets : option Z) (we : option string) :
  tracked_only_assigned (db w) ->
  tracked_only_assigned (tables (assignProgram a b env w))
  /\ tracked_only_assigned (tables (markWorkoutDone a b env w))
  /\ tracked_only_assigned (tables (submitFeedback a b m env w))
  /\ tracked_only_assigned
       (tables_of_create (createWorkout k b tm ds sets we env w)).
Proof.
  intros Hinv. repeat apply conj.
  - destruct (assignProgram_shape env w a b)
      as [E | (u & p & _ & _ & _ & _ & [E | (_ & [E | E])])];
      [unfold tables; now rewrite E | now rewrite E | |];
      rewrite E; intros e He; cbn in He.
    + destruct (Hinv e He) as (x & Hx & Hid & Ha).
      exists x. repeat split; [exact Hx | exact Hid|].
      unfold has_assignment in *; cbn. now rewrite existsb_app, Ha.
    + apply in_app_iff in He as [He|He].
      * destruct (Hinv e He) as (x & Hx & Hid & Ha).
        exists x. repeat split; [exact Hx | exact Hid|].
        unfold has_assignment in *; cbn. now rewrite existsb_app, Ha.
      * unfold new_progress in He.
        apply in_map_iff in He as (x & <- & Hx).
        apply filter_In in Hx as [Hx Hp]. apply Z.eqb_eq in Hp.
        exists x. repeat split; [exact Hx|].
        unfold has_assignment; cbn.
        rewrite existsb_snoc, Hp, is_assignment_refl. apply orb_true_r.
  - destruct (markWorkoutDone_shape env w a b)
      as [E | (u & j & _ & _ & _ & _ & [E | [E | (p & _ & _ & _ & E)]])];
      [unfold tables; now rewrite E | now rewrite E | |];
      rewrite E; intros e He; cbn in He;
      apply in_map_iff in He as (e0 & <- & He0);
      destruct (Hinv e0 He0) as (x & Hx & Hid & Ha);
      destruct (mark_done_step (NOW env 0) u j e0) as (K1 & K2 & _);
      exists x; rewrite K1, K2;
      (repeat split; [exact Hx | exact Hid|]).
    + exact Ha.
    + unfold has_assignment in *; cbn. now rewrite has_assignment_stamp.
  - destruct (submitFeedback_shape env w a b m)
      as [E | (u & p & s & _ & _ & _ & _ & _ & _
               & [E | (x & t & _ & _ & _ & E)])];
      [unfold tables; now rewrite E | now rewrite E |].
    rewrite E. exact Hinv.
  - destruct (createWorkout_shape env w k b tm ds sets we) as [E | (p & E)];
      rewrite E; [exact Hinv|].
    intros e He. cbn in He.
    destruct (Hinv e He) as (x & Hx & Hid & Ha).
    exists x. repeat split; [|exact Hid | exact Ha].
    cbn. apply in_app_iff. now left.
Qed.

Lemma tracked_only_assigned_kept_witness :
  tracked_only_assigned
    (tables (assignProgram (Some 1) (Some 1) (quiet 10) (mkWorld gym []))).
Proof.
  refine (proj1 (@tracked_only_assigned_kept (quiet 10) (mkWorld gym [])
                   (Some 1) (Some 1) None None None 0 None None _)).
  intros e [].
Defined.

Lemma new_progress_keys now u p d :
  NoDup (map w_id (workouts d)) ->
  NoDup (map (fun e => (pr_user_id e, pr_workout_id e))
             (new_progress now u p d)).
Proof.
  unfold new_progress. rewrite map_map; cbn.
  induction (workouts d) as [|x l IH]; cbn; [constructor|].
  intros Hnd. inversion Hnd as [|? ? Hx Hl]; subst.
  destruct (w_program_id x =? p); cbn; [|now apply IH].
  constructor; [|now apply IH].
  intros Hin. apply in_map_iff in Hin as (y & [= Hy] & Hyin).
  apply filter_In in Hyin as [Hyin _].
  apply Hx. rewrite <- Hy. now apply in_map.
Qed.

(** X19. At most one ProgressEntry per (user, workout) pair, without help
    from a constraint of the store: in a store where workout ids are a
    key and every entry belongs to an assigned program, assignProgram and
    markWorkoutDone keep the (user, workout) pairs of user_progress free
    of duplicates, on every input and whatever the store does. *)
Theorem unique_progress_kept
        (env : Env) (w : World) (a b : option Z) :
  NoDup (map w_id (workouts (db w))) ->
  tracked_only_assigned (db w) ->
  unique_progress (db w) ->
  unique_progress (tables (assignProgram a b env w))
  /\ unique_progress (tables (markWorkoutDone a b env w)).
Proof.
  intros Hkey Htr Hinv. split.
  - destruct (assignProgram_shape env w a b)
      as [E | (u & p & _ & _ & _ & _ & [E | (Hx & [E | E])])];
      [unfold tables; now rewrite E | now rewrite E | now rewrite E |].
    rewrite E. unfold unique_progress; cbn. rewrite map_app.
    apply NoDup_app; [exact Hinv | now apply new_progress_keys|].
    intros [u' k] Hold Hnew.
    apply in_map_iff in Hnew as (e & [= Eu Ek] & He).
    unfold new_progress in He. apply in_map_iff in He as (x & <- & Hxin).
    cbn in Eu, Ek. subst u' k.
    apply filter_In in Hxin as [Hxin Hxp]. apply Z.eqb_eq in Hxp.
    apply in_map_iff in Hold as (e0 & [= Eu Ek] & He0).
    destruct (Htr e0 He0) as (y & Hy & Hid & Ha).
    assert (Hyx : w_program_id y = p).
    { pose proof (workout_program_unique _ y Hkey Hy) as H1.
      pose proof (workout_program_unique _ x Hkey Hxin) as H2.
      rewrite Hid, Ek in H1. rewrite H1 in H2. now injection H2 as ->. }
    rewrite Eu, Hyx in Ha. rewrite Hx in Ha. discriminate.
  - destruct (markWorkoutDone_shape env w a b)
      as [E | (u & j & _ & _ & _ & _ & [E | [E | (p & _ & _ & _ & E)]])];
      [unfold tables; now rewrite E | now rewrite E | |];
      rewrite E; unfold unique_progress; cbn; rewrite map_map;
      erewrite map_ext; try exact Hinv;
      intros e; cbn;
      destruct (mark_done_step (NOW env 0) u j e) as (K1 & K2 & _);
      now rewrite K1, K2.
Qed.

Lemma unique_progress_kept_witness :
  unique_progress
    (tables (assignProgram (Some 1) (Some 1) (quiet 10) (mkWorld gym []))).
Proof.
  refine (proj1 (@unique_progress_kept (quiet 10) (mkWorld gym [])
                   (Some 1) (Some 1) _ _ _)).
  - cbn. repeat constructor; cbn; intuition lia.
  - intros e [].
  - constructor.
Defined.

